(** * Essay tutor: session store and one conversational turn

    A shallow embedding of [agent/essay_tutor.py].  Python objects live in
    a heap indexed by object identity, so that a reference handed to a
    caller ([create_session], [get_session_info]) and the reference kept in
    [self.sessions] are visibly the same object, while the list returned by
    [get_session_history] is a new one.  The methods are written in a state
    monad with exceptions, where an exception that is not an [Exception]
    (a cancellation, Ctrl-C) is an outcome of its own that [except
    Exception] lets through; the clock, the remote completion service and
    the constructor of its client are the parameters of the development. *)

From stdpp Require Import gmap strings list fin_maps.
From Stdlib Require Import ZArith QArith Sorted.
Close Scope Q_scope.

(** ** Values and objects *)

(** Object identity. *)
Abbreviation loc := positive (only parsing).

(** [Optional[str]]. *)
Inductive pyval :=
  | PyNone
  | PyStr (s : string).

Global Instance pyval_eq_dec : EqDecision pyval.
Proof. solve_decision. Defined.

(** Python truth value of an [Optional[str]]: [None] and the empty string
    are false. *)
Definition truthy (v : pyval) : bool :=
  match v with
  | PyNone => false
  | PyStr EmptyString => false
  | PyStr (String _ _) => true
  end.

(** [a or b]. *)
Definition py_or (a b : pyval) : pyval := if truthy a then a else b.

Abbreviation datetime := Z (only parsing).

(** An exception, with its class name and what [str(e)] gives. *)
Record Exception := mkException { exc_class : string; exc_str : string }.

Definition ValueError (msg : string) : Exception := mkException "ValueError" msg.
Definition IndexError (msg : string) : Exception := mkException "IndexError" msg.
Definition KeyError (msg : string) : Exception := mkException "KeyError" msg.
Definition AttributeError (msg : string) : Exception := mkException "AttributeError" msg.

(** An exception whose class derives from [BaseException] but not from
    [Exception]: [KeyboardInterrupt], [asyncio.CancelledError],
    [SystemExit].  [except Exception] does not catch it. *)
Record BaseException := mkBaseException { base_class : string; base_str : string }.

Definition KeyboardInterrupt : BaseException := mkBaseException "KeyboardInterrupt" "".
Definition CancelledError : BaseException := mkBaseException "CancelledError" "".

(** [@dataclass class Message]. *)
Record Message := mkMessage {
  role : string;
  content : pyval;
  timestamp : datetime
}.

(** [@dataclass class EssaySession]; [messages] refers to a list object. *)
Record EssaySession := mkEssaySession {
  session_id : string;
  topic : pyval;
  messages : loc;
  current_stage : string
}.

Inductive object :=
  | OMessage (m : Message)
  | OList (items : list loc)
  | OEssaySession (s : EssaySession).

(** ** The completion service *)

(** One [{"role": ..., "content": ...}] entry of the outbound request. *)
Record chat_message := mkChatMessage { cm_role : string; cm_content : pyval }.

(** The keyword arguments of [chat.completions.create]. *)
Record request := mkRequest {
  model : string;
  req_messages : list chat_message;
  max_tokens : Z;
  temperature : Q
}.

(** The part of the service's answer the code reads:
    [response.choices[0].message.content]. *)
Record ChatCompletionMessage := mkChatCompletionMessage { message_content : pyval }.
Record Choice := mkChoice { message : ChatCompletionMessage }.
Record ChatCompletion := mkChatCompletion { choices : list Choice }.

(** ** State and monad *)

Inductive result (A : Type) :=
  | Ok (a : A)
  | Raise (e : Exception)
  | RaiseBase (b : BaseException).
Arguments Ok {A} a.
Arguments Raise {A} e.
Arguments RaiseBase {A} b.

(** [heap] and [sessions] are the program's state ([self.sessions] is the
    dict of the one tutor object); [ticks] counts the clock readings and
    [sent] logs the requests dispatched so far. *)
Record state := mkState {
  heap : gmap loc object;
  sessions : gmap string loc;
  ticks : nat;
  sent : list request
}.

Definition M (A : Type) : Type := state → result A * state.

Global Instance M_ret : MRet M := λ A a st, (Ok a, st).
Global Instance M_bind : MBind M := λ A B f m st,
  match m st with
  | (Ok a, st') => f a st'
  | (Raise e, st') => (Raise e, st')
  | (RaiseBase b, st') => (RaiseBase b, st')
  end.

Definition raise {A} (e : Exception) : M A := λ st, (Raise e, st).

(** [try: body except Exception as e: handler e].  What [body] did to the
    state before raising stays done; an exception that is not an
    [Exception] goes through. *)
Definition try_except {A} (body : M A) (handler : Exception → M A) : M A := λ st,
  match body st with
  | (Ok a, st') => (Ok a, st')
  | (Raise e, st') => handler e st'
  | (RaiseBase b, st') => (RaiseBase b, st')
  end.

(** ** Heap primitives *)

Definition alloc (o : object) : M loc := λ st,
  let l := fresh (dom (heap st)) in
  (Ok l, mkState (<[l := o]> (heap st)) (sessions st) (ticks st) (sent st)).

Definition store (l : loc) (o : object) : M unit := λ st,
  (Ok tt, mkState (<[l := o]> (heap st)) (sessions st) (ticks st) (sent st)).

(** Reading an object as a list, a message or a session; an object of
    another class has no such attributes. *)
Definition load_list (l : loc) : M (list loc) := λ st,
  match heap st !! l with
  | Some (OList items) => (Ok items, st)
  | _ => (Raise (AttributeError "not a list"), st)
  end.

Definition load_message (l : loc) : M Message := λ st,
  match heap st !! l with
  | Some (OMessage m) => (Ok m, st)
  | _ => (Raise (AttributeError "not a Message"), st)
  end.

Definition load_session (l : loc) : M EssaySession := λ st,
  match heap st !! l with
  | Some (OEssaySession s) => (Ok s, st)
  | _ => (Raise (AttributeError "not an EssaySession"), st)
  end.

(** [lst.append(x)]. *)
Definition list_append (l : loc) (x : loc) : M unit :=
  items ← load_list l; store l (OList (items ++ [x])).

(** [lst.copy()]: a new list object with the same items. *)
Definition list_copy (l : loc) : M loc :=
  items ← load_list l; alloc (OList items).

(** [lst[start:]]. *)
Definition slice_from {A} (start : Z) (l : list A) : list A :=
  let len := Z.of_nat (length l) in
  let i := if (start <? 0)%Z then Z.max (start + len) 0 else Z.min start len in
  drop (Z.to_nat i) l.

(** [lst[0]]. *)
Definition list_getitem0 {A} (l : list A) : M A :=
  match l with
  | x :: _ => mret x
  | [] => raise (IndexError "list index out of range")
  end.

(** [session_id in self.sessions], [self.sessions[session_id]],
    [self.sessions[session_id] = l] and [self.sessions.get(session_id)]. *)
Definition sessions_contains (sid : string) : M bool := λ st,
  (Ok (bool_decide (is_Some (sessions st !! sid))), st).

Definition sessions_getitem (sid : string) : M loc := λ st,
  match sessions st !! sid with
  | Some l => (Ok l, st)
  | None => (Raise (KeyError sid), st)
  end.

Definition sessions_setitem (sid : string) (l : loc) : M unit := λ st,
  (Ok tt, mkState (heap st) (<[sid := l]> (sessions st)) (ticks st) (sent st)).

Definition sessions_get (sid : string) : M (option loc) := λ st,
  (Ok (sessions st !! sid), st).

(** ** The tutor *)

Definition system_prompt : string :=
"You are an expert essay writing tutor. Your role is to help students learn how to write effective essays through a structured, step-by-step approach.

Your teaching methodology:
1. Start by helping students choose a clear, focused topic
2. Guide them through brainstorming ideas and organizing thoughts
3. Help them create a structured outline
4. Assist with writing clear, coherent paragraphs
5. Provide feedback on revision and improvement

Key principles to emphasize:
- Clear thesis statements
- Logical organization and flow
- Strong topic sentences
- Supporting evidence and examples
- Proper transitions between ideas
- Conclusion that reinforces the main argument

Be encouraging, patient, and specific in your feedback. Ask clarifying questions when needed and provide concrete suggestions for improvement. Always maintain a supportive, educational tone.".

Definition error_prefix : string := "Sorry, I encountered an error: ".

(** [os.getenv(name)]. *)
Definition os_getenv (environ : gmap string string) (name : string) : pyval :=
  match environ !! name with
  | Some v => PyStr v
  | None => PyNone
  end.

(** [EssayTutor.__init__]: the key that was kept and the empty store, or
    the [ValueError], or what the construction of the client raised.
    [AsyncOpenAI] is the constructor of the client library, called with the
    key; the client it returns is the [remote] of the calls. *)
Definition EssayTutor_init (AsyncOpenAI : pyval → result unit)
    (api_key : pyval) (environ : gmap string string)
  : result (pyval * state) :=
  let key := py_or api_key (os_getenv environ "OPENAI_API_KEY") in
  if negb (truthy key) then
    Raise (ValueError "OpenAI API key is required. Set OPENAI_API_KEY environment variable or pass it to the constructor.")
  else
    match AsyncOpenAI key with
    | Ok _ => Ok (key, mkState ∅ ∅ 0 [])
    | Raise e => Raise e
    | RaiseBase b => RaiseBase b
    end.

(** [EssaySession(session_id=session_id)] with [__post_init__]: the
    defaults, and a new empty list for [messages]. *)
Definition new_EssaySession (sid : string) : M loc :=
  msgs ← alloc (OList []);
  alloc (OEssaySession (mkEssaySession sid PyNone msgs "topic_selection")).

Definition create_session (sid : string) : M loc :=
  session ← new_EssaySession sid;
  _ ← sessions_setitem sid session;
  mret session.

Definition get_session_history (sid : string) : M loc :=
  present ← sessions_contains sid;
  if negb present then alloc (OList [])
  else
    session ← sessions_getitem sid;
    s ← load_session session;
    list_copy (messages s).

Definition get_session_info (sid : string) : M (option loc) :=
  sessions_get sid.

Definition reset_session (sid : string) : M bool :=
  present ← sessions_contains sid;
  if (present : bool) then
    session ← new_EssaySession sid;
    _ ← sessions_setitem sid session;
    mret true
  else mret false.

Section World.

(** [datetime.now()] at the n-th reading, and what the n-th call of
    [client.chat.completions.create] does with its request. *)
Variable clock : nat → datetime.
Variable remote : nat → request → result ChatCompletion.

Definition datetime_now : M datetime := λ st,
  (Ok (clock (ticks st)), mkState (heap st) (sessions st) (S (ticks st)) (sent st)).

Definition chat_completions_create (req : request) : M ChatCompletion := λ st,
  (remote (length (sent st)) req,
   mkState (heap st) (sessions st) (ticks st) (sent st ++ [req])).

(** [session.messages.append(Message(role=..., content=..., timestamp=datetime.now()))]:
    [session.messages.append] is looked up before the message is built. *)
Definition append_message (session : loc) (r : string) (c : pyval) : M unit :=
  s ← load_session session;
  _ ← load_list (messages s);
  t ← datetime_now;
  m ← alloc (OMessage (mkMessage r c t));
  list_append (messages s) m.

Definition to_chat_message (msg : Message) : chat_message :=
  mkChatMessage (role msg) (content msg).

Definition get_response (sid user_message : string) : M pyval :=
  present ← sessions_contains sid;
  _ ← (if negb present then _ ← create_session sid; mret tt else mret tt : M unit);
  session ← sessions_getitem sid;
  _ ← append_message session "user" (PyStr user_message);
  s ← load_session session;
  items ← load_list (messages s);
  window ← mapM (λ l, msg ← load_message l; mret (to_chat_message msg))
                (slice_from (-10) items);
  let msgs := mkChatMessage "system" (PyStr system_prompt) :: window in
  try_except
    (response ← chat_completions_create (mkRequest "gpt-3.5-turbo" msgs 500 (7 # 10));
     choice ← list_getitem0 (choices response);
     let assistant_response := message_content (message choice) in
     _ ← append_message session "assistant" assistant_response;
     mret assistant_response)
    (λ e,
     let error_msg := error_prefix +:+ exc_str e in
     _ ← append_message session "assistant" (PyStr error_msg);
     mret (PyStr error_msg)).

End World.

(** ** What callers observe *)

(** The messages held by the list object [r]. *)
Definition read_messages (h : gmap loc object) (r : loc) : option (list Message) :=
  match h !! r with
  | Some (OList items) =>
      mapM (λ l, match h !! l with Some (OMessage m) => Some m | _ => None end) items
  | _ => None
  end.

(** [history(id)]: the contents of the list [get_session_history] returns. *)
Definition history (st : state) (sid : string) : option (list Message) :=
  match get_session_history sid st with
  | (Ok r, st') => read_messages (heap st') r
  | _ => None
  end.

(** [sessionInfo(id)]: the session object [get_session_info] returns. *)
Definition session_info (st : state) (sid : string) : option EssaySession :=
  match get_session_info sid st with
  | (Ok (Some l), st') =>
      match heap st' !! l with Some (OEssaySession s) => Some s | _ => None end
  | _ => None
  end.

(** [sessionInfo(id)] reports absent. *)
Definition info_absent (st : state) (sid : string) : Prop :=
  fst (get_session_info sid st) = Ok None.

(** ** Well-formed object graphs *)

(** The objects [items] are messages, with the values [vals]. *)
Definition msgs_at (h : gmap loc object) (items : list loc) (vals : list Message) : Prop :=
  Forall2 (λ l v, h !! l = Some (OMessage v)) items vals.

(** [l] is the session object [s], whose message list holds [vals]. *)
Definition holds (h : gmap loc object) (l : loc) (s : EssaySession) (vals : list Message) : Prop :=
  h !! l = Some (OEssaySession s) ∧
  ∃ items, h !! messages s = Some (OList items) ∧ msgs_at h items vals.

(** Every key of [self.sessions] refers to a session object with a list of
    messages. *)
Definition wf (st : state) : Prop :=
  ∀ sid l, sessions st !! sid = Some l → ∃ s vals, holds (heap st) l s vals.

(** The stored session's [session_id] is the key it is stored under. *)
Definition key_inv (st : state) : Prop :=
  ∀ sid l, sessions st !! sid = Some l →
    ∃ s, heap st !! l = Some (OEssaySession s) ∧ session_id s = sid.

(** Every object of [h] except [k] is the same in [h']. *)
Definition frame (h h' : gmap loc object) (k : loc) : Prop :=
  ∀ k' o, h !! k' = Some o → k' ≠ k → h' !! k' = Some o.

(** The state of a tutor that was just constructed. *)
Definition init_state : state := mkState ∅ ∅ 0 [].

(** Assigning to an attribute of a session object the caller holds. *)
Definition setattr_topic (l : loc) (v : pyval) : M unit :=
  s ← load_session l;
  store l (OEssaySession (mkEssaySession (session_id s) v (messages s) (current_stage s))).

(** The outbound request for a message log, and what comes out of the
    [try] statement for an answer of the service: the text returned, or the
    exception that is not caught. *)
Definition request_for (log : list Message) : request :=
  mkRequest "gpt-3.5-turbo"
    (mkChatMessage "system" (PyStr system_prompt) :: (to_chat_message <$> slice_from (-10) log))
    500 (7 # 10).

Definition outcome_of (answer : result ChatCompletion) : result pyval :=
  match answer with
  | Ok response =>
      match choices response with
      | choice :: _ => Ok (message_content (message choice))
      | [] => Ok (PyStr (error_prefix +:+ "list index out of range"))
      end
  | Raise e => Ok (PyStr (error_prefix +:+ exc_str e))
  | RaiseBase b => RaiseBase b
  end.

(** The assistant message a turn logs at time [t]: one when the turn comes
    to a reply, none when an exception goes through. *)
Definition replies_of (outcome : result pyval) (t : datetime) : list Message :=
  match outcome with
  | Ok reply => [mkMessage "assistant" reply t]
  | _ => []
  end.

(** The awaited call of the service always completes, with an answer or
    an [Exception]: no cancellation, no Ctrl-C while it is awaited. *)
Definition always_completes (remote : nat → request → result ChatCompletion) : Prop :=
  ∀ n req b, remote n req ≠ RaiseBase b.

(** The messages stored for [sid], read from the store itself: the empty
    sequence for an unknown id. *)
Definition stored_messages (st : state) (sid : string) : option (list Message) :=
  match sessions st !! sid with
  | None => Some []
  | Some l =>
      match heap st !! l with
      | Some (OEssaySession s) => read_messages (heap st) (messages s)
      | _ => None
      end
  end.

(** The last [n] elements of a list. *)
Definition last_n {A} (n : nat) (l : list A) : list A := drop (length l - n) l.


Definition role_content (m : Message) : string * pyval := (role m, content m).

(** One [respond] call after the other on the same session id. *)
Definition respond_all (clock : nat → datetime)
    (remote : nat → request → result ChatCompletion)
    (sid : string) (texts : list string) : M (list pyval) :=
  mapM (get_response clock remote sid) texts.

(** ** Stub collaborators *)

Definition stub_clock (n : nat) : datetime := Z.of_nat n.

(** A service whose every call raises [Exception("API Error")]. *)
Definition failing_remote (n : nat) (req : request) : result ChatCompletion :=
  Raise (mkException "Exception" "API Error").

(** A call that is cancelled while it is awaited. *)
Definition cancelled_remote (n : nat) (req : request) : result ChatCompletion :=
  RaiseBase CancelledError.

(** A service whose every call is interrupted by Ctrl-C while it is
    awaited. *)
Definition interrupted_remote (n : nat) (req : request) : result ChatCompletion :=
  RaiseBase KeyboardInterrupt.

(** A constructor of the client that accepts every key. *)
Definition stub_AsyncOpenAI (key : pyval) : result unit := Ok tt.

(** A service that echoes "OK:" and the content of the last message. *)
Definition echo_remote (n : nat) (req : request) : result ChatCompletion :=
  let text :=
    match last (req_messages req) with
    | Some (mkChatMessage _ (PyStr s)) => s
    | _ => ""
    end in
  Ok (mkChatCompletion [mkChoice (mkChatCompletionMessage (PyStr ("OK:" +:+ text)))]).

(** The state after [create_session "s1"] on a new tutor. *)
Definition one_session : state := snd (create_session "s1" init_state).

(** The states a tutor can be in: the methods called in any order, with
    callers assigning to the topic of session objects they hold. *)
Inductive reachable (clock : nat → datetime)
    (remote : nat → request → result ChatCompletion) : state → Prop :=
  | reach_init : reachable clock remote init_state
  | reach_create st sid :
      reachable clock remote st →
      reachable clock remote (snd (create_session sid st))
  | reach_respond st sid text :
      reachable clock remote st →
      reachable clock remote (snd (get_response clock remote sid text st))
  | reach_reset st sid :
      reachable clock remote st →
      reachable clock remote (snd (reset_session sid st))
  | reach_history st sid :
      reachable clock remote st →
      reachable clock remote (snd (get_session_history sid st))
  | reach_topic st l v :
      reachable clock remote st →
      reachable clock remote (snd (setattr_topic l v st)).

(** ** Sessions apart, and logs as turns *)

(** The list object that holds the messages of the session stored under
    [sid]. *)
Definition msgs_loc (st : state) (sid : string) : option loc :=
  match sessions st !! sid with
  | Some l =>
      match heap st !! l with
      | Some (OEssaySession s) => Some (messages s)
      | _ => None
      end
  | None => None
  end.

(** No two session ids share a message list. *)
Definition sep (st : state) : Prop :=
  ∀ sid1 sid2 k, msgs_loc st sid1 = Some k → msgs_loc st sid2 = Some k → sid1 = sid2.

(** A turn: the clock reading at which the user's message was stamped, the
    user's text and the reply, if the turn came to one. *)
Definition turn : Type := nat * string * option pyval.

Definition turn_messages (clock : nat → datetime) (t : turn) : list Message :=
  mkMessage "user" (PyStr t.1.2) (clock t.1.1)
  :: match t.2 with
     | Some reply => [mkMessage "assistant" reply (clock (S t.1.1))]
     | None => []
     end.

Definition log_of (clock : nat → datetime) (turns : list turn) : list Message :=
  turns ≫= turn_messages clock.

(** The turns were stamped in order, one reading for each message, from
    reading [lo] on and before reading [hi]. *)
Fixpoint spaced (lo : nat) (turns : list turn) (hi : nat) : Prop :=
  match turns with
  | [] => lo ≤ hi
  | t :: rest => lo ≤ t.1.1 ∧ spaced (t.1.1 + length (turn_messages (λ _, 0%Z) t)) rest hi
  end.

(** What a turn keeps of the outcome of its call: the reply, when there is
    one. *)
Definition reply_part (outcome : result pyval) : option pyval :=
  match outcome with
  | Ok reply => Some reply
  | _ => None
  end.

(** A turn that came to a reply. *)
Definition whole (t : turn) : Prop := is_Some t.2.

(** The log of [sid] is made of turns stamped before the current clock
    reading, each of which satisfies [Q]. *)
Definition turn_log (Q : turn → Prop) (clock : nat → datetime) (st : state) (sid : string)
    : Prop :=
  ∃ turns,
    history st sid = Some (log_of clock turns) ∧ spaced 0 turns (ticks st) ∧ Forall Q turns.

(** The shape of a request: the fixed parameters, the system instruction,
    at most nine earlier user or assistant messages and the user's message
    last. *)
Definition request_ok (req : request) : Prop :=
  model req = "gpt-3.5-turbo" ∧ max_tokens req = 500%Z ∧ temperature req = (7 # 10)%Q ∧
  ∃ window text,
    req_messages req
    = mkChatMessage "system" (PyStr system_prompt)
      :: window ++ [mkChatMessage "user" (PyStr text)] ∧
    length window ≤ 9 ∧
    Forall (λ m, cm_role m = "user" ∨ cm_role m = "assistant") window.

(** The state after five turns with the echoing stub on a new tutor. *)
Definition five_turns : state :=
  snd (respond_all stub_clock echo_remote "s1"
         ["one"; "two"; "three"; "four"; "five"] init_state).

(** A service that answers with no choice at all, and one whose first
    choice has no content and whose second choice has some. *)
Definition empty_remote (n : nat) (req : request) : result ChatCompletion :=
  Ok (mkChatCompletion []).

Definition none_remote (n : nat) (req : request) : result ChatCompletion :=
  Ok (mkChatCompletion [mkChoice (mkChatCompletionMessage PyNone);
                        mkChoice (mkChatCompletionMessage (PyStr "second"))]).

(** ** The command line loop *)

(** [str(v)], as [print] and f-strings apply it. *)
Definition py_str (v : pyval) : string :=
  match v with
  | PyNone => "None"
  | PyStr s => s
  end.

Definition nl : string := String (Ascii.ascii_of_nat 10) "".

(** The tutor and what was written to standard output, one entry for each
    [print] or prompt. *)
Record console := mkConsole { console_tutor : state; stdout : list string }.

(** [print(s)] and [print(s, end="")]. *)
Definition print (s : string) (c : console) : console :=
  mkConsole (console_tutor c) (stdout c ++ [s +:+ nl]).

Definition write (s : string) (c : console) : console :=
  mkConsole (console_tutor c) (stdout c ++ [s]).

(** What [input] gives: a line, the end of the input ([EOFError]) or
    Ctrl-C ([KeyboardInterrupt]). *)
Inductive stdin_event :=
  | Line (s : string)
  | Eof
  | Interrupt.

(** How an iteration ends: on to the next, out of the loop, or out of
    [main] with an exception no handler of the loop catches. *)
Inductive control :=
  | Continue
  | Break
  | Propagate (b : BaseException).

Definition cli_session_id : string := "test_session".

Section CLI.

Variable clock : nat → datetime.
Variable remote : nat → request → result ChatCompletion.
Variable AsyncOpenAI : pyval → result unit.

(** [str.strip], [str.lower] and [str.capitalize]. *)
Variable strip lower capitalize : string → string.

(** [for msg in history: print(f"{msg.role.capitalize()}: {msg.content}")]. *)
Fixpoint print_messages (items : list loc) (c : console) : result unit * console :=
  match items with
  | [] => (Ok tt, c)
  | l :: rest =>
      match load_message l (console_tutor c) with
      | (Ok msg, st') =>
          print_messages rest
            (print (capitalize (role msg) +:+ ": " +:+ py_str (content msg))
               (mkConsole st' (stdout c)))
      | (Raise e, st') => (Raise e, mkConsole st' (stdout c))
      | (RaiseBase b, st') => (RaiseBase b, mkConsole st' (stdout c))
      end
  end.

(** The body of the [try] statement once the line is read and stripped. *)
Definition cli_command (user_input : string) (c : console) : result control * console :=
  if decide (lower user_input = "quit") then
    (Ok Break, print "Goodbye! Keep practicing your essay writing!" c)
  else if decide (lower user_input = "reset") then
    match reset_session cli_session_id (console_tutor c) with
    | (Ok _, st') =>
        (Ok Continue, print "Session reset. Let's start fresh!" (mkConsole st' (stdout c)))
    | (Raise e, st') => (Raise e, mkConsole st' (stdout c))
    | (RaiseBase b, st') => (RaiseBase b, mkConsole st' (stdout c))
    end
  else if decide (lower user_input = "history") then
    match get_session_history cli_session_id (console_tutor c) with
    | (Ok r, st') =>
        let c1 := print (nl +:+ "Conversation History:") (mkConsole st' (stdout c)) in
        match load_list r (console_tutor c1) with
        | (Ok items, st'') =>
            match print_messages items (mkConsole st'' (stdout c1)) with
            | (Ok _, c2) => (Ok Continue, c2)
            | (Raise e, c2) => (Raise e, c2)
            | (RaiseBase b, c2) => (RaiseBase b, c2)
            end
        | (Raise e, st'') => (Raise e, mkConsole st'' (stdout c1))
        | (RaiseBase b, st'') => (RaiseBase b, mkConsole st'' (stdout c1))
        end
    | (Raise e, st') => (Raise e, mkConsole st' (stdout c))
    | (RaiseBase b, st') => (RaiseBase b, mkConsole st' (stdout c))
    end
  else if negb (truthy (PyStr user_input)) then (Ok Continue, c)
  else
    let c1 := write "Tutor: " c in
    match get_response clock remote cli_session_id user_input (console_tutor c1) with
    | (Ok response, st') =>
        (Ok Continue, print (py_str response) (mkConsole st' (stdout c1)))
    | (Raise e, st') => (Raise e, mkConsole st' (stdout c1))
    | (RaiseBase b, st') => (RaiseBase b, mkConsole st' (stdout c1))
    end.

(** One iteration of [while True]: [except KeyboardInterrupt] ends the
    loop, [except Exception] prints the error and goes on, and any other
    exception leaves [main]. *)
Definition cli_step (ev : stdin_event) (c : console) : control * console :=
  let c0 := write (nl +:+ "You: ") c in
  match ev with
  | Interrupt => (Break, print (nl +:+ "Goodbye! Keep practicing your essay writing!") c0)
  | Eof => (Continue, print "An error occurred: EOF when reading a line" c0)
  | Line line =>
      match cli_command (strip line) c0 with
      | (Ok ctl, c1) => (ctl, c1)
      | (Raise e, c1) => (Continue, print ("An error occurred: " +:+ exc_str e) c1)
      | (RaiseBase b, c1) =>
          if decide (base_class b = "KeyboardInterrupt")
          then (Break, print (nl +:+ "Goodbye! Keep practicing your essay writing!") c1)
          else (Propagate b, c1)
      end
  end.

(** The loop on the input events that are there; it stops at the first
    [break]. *)
Fixpoint cli_loop (events : list stdin_event) (c : console) : control * console :=
  match events with
  | [] => (Continue, c)
  | ev :: rest =>
      match cli_step ev c with
      | (Continue, c') => cli_loop rest c'
      | (Break, c') => (Break, c')
      | (Propagate b, c') => (Propagate b, c')
      end
  end.

(** [main]: the two lines of welcome, the tutor constructed from the
    environment, and the loop.  The result is what was printed, and how the
    loop ended with the tutor's state or the exception of the
    constructor. *)
Definition welcome : list string :=
  ["Welcome to the Essay Writing Tutor!" +:+ nl;
   "Type 'quit' to exit, 'reset' to start over, 'history' to see conversation history" +:+ nl].

Definition main (environ : gmap string string) (events : list stdin_event)
  : list string * result (control * state) :=
  match EssayTutor_init AsyncOpenAI PyNone environ with
  | Ok (_, st) =>
      let '(ctl, c) := cli_loop events (mkConsole st welcome) in
      (stdout c,
       match ctl with
       | Propagate b => RaiseBase b
       | _ => Ok (ctl, console_tutor c)
       end)
  | Raise e => (welcome, Raise e)
  | RaiseBase b => (welcome, RaiseBase b)
  end.

(** The line [history] prints for a message. *)
Definition history_line (m : Message) : string :=
  (capitalize (role m) +:+ ": " +:+ py_str (content m)) +:+ nl.

(** What the loop keeps true of the tutor: the state is well formed and no
    user message of its session is empty or a command. *)
Definition cli_inv (c : console) : Prop :=
  wf (console_tutor c) ∧
  ∃ hist,
    history (console_tutor c) cli_session_id = Some hist ∧
    Forall (λ m, role m = "user" →
              ∃ s, content m = PyStr s ∧ s ≠ "" ∧
                   lower s ≠ "quit" ∧ lower s ≠ "reset" ∧ lower s ≠ "history") hist.

End CLI.

(** ** The chat page *)

(** The session state of the page once the tutor is constructed: the tutor
    and the transcript ([st.session_state['history']]). *)
Record page := mkPage { page_tutor : state; page_history : list chat_message }.

(** The elements of a run that depend on the state. *)
Inductive element :=
  | StError (s : string)
  | StSuccess (s : string)
  | StMarkdown (s : string)
  | StException (e : Exception)
  | StBaseException (b : BaseException).

(** The values of the widgets in a run: the text input, the form's submit
    button and the reset button. *)
Record widgets := mkWidgets { user_input : string; submit : bool; reset_clicked : bool }.

Definition web_session_id : string := "web_session".

Definition render_message (m : chat_message) : element :=
  if decide (cm_role m = "user")
  then StMarkdown ("**You:** " +:+ py_str (cm_content m))
  else StMarkdown ("**Tutor:** " +:+ py_str (cm_content m)).

Section Page.

Variable clock : nat → datetime.
Variable remote : nat → request → result ChatCompletion.
Variable AsyncOpenAI : pyval → result unit.

(** [str.strip], and [os.environ] when the page is first run. *)
Variable strip : string → string.
Variable environ : gmap string string.

(** [if submit and user_input.strip(): ...]: the user's entry, the call of
    the tutor and the assistant's entry when the response is true.  The
    boolean tells whether the run goes on: [except Exception] shows the
    error and goes on, any other exception ends the run. *)
Definition page_chat (w : widgets) (p : page) : page * list element * bool :=
  if submit w && truthy (PyStr (strip (user_input w))) then
    let h := page_history p ++ [mkChatMessage "user" (PyStr (user_input w))] in
    match get_response clock remote web_session_id (user_input w) (page_tutor p) with
    | (Ok response, st') =>
        (mkPage st'
           (h ++ if truthy response then [mkChatMessage "assistant" response] else []),
         [], true)
    | (Raise e, st') => (mkPage st' h, [StError ("Error: " +:+ exc_str e)], true)
    | (RaiseBase b, st') => (mkPage st' h, [StBaseException b], false)
    end
  else (p, [], true).

(** The script from the reset button on: the button, the input, the
    transcript. *)
Definition page_body (w : widgets) (p : page) : page * list element :=
  if reset_clicked w then
    match reset_session web_session_id (page_tutor p) with
    | (Ok _, st') =>
        let '(p2, out2, go_on) := page_chat w (mkPage st' []) in
        (p2, [StSuccess "Session reset!"] ++ out2
             ++ if go_on then render_message <$> page_history p2 else [])
    | (Raise e, st') => (mkPage st' (page_history p), [StException e])
    | (RaiseBase b, st') => (mkPage st' (page_history p), [StBaseException b])
    end
  else
    let '(p2, out2, go_on) := page_chat w p in
    (p2, out2 ++ if go_on then render_message <$> page_history p2 else []).

(** One run of the script on the session state: empty, or the page of the
    run before.  When the tutor cannot be constructed the run stops there
    and the session state stays empty. *)
Definition page_script (w : widgets) (ss : option page) : option page * list element :=
  match ss with
  | Some p => let '(p', out) := page_body w p in (Some p', out)
  | None =>
      match EssayTutor_init AsyncOpenAI PyNone environ with
      | Ok (_, st) => let '(p', out) := page_body w (mkPage st []) in (Some p', out)
      | Raise e => (None, [StError ("Error initializing EssayTutor: " +:+ exc_str e)])
      | RaiseBase b => (None, [StBaseException b])
      end
  end.

Fixpoint page_runs (ws : list widgets) (ss : option page) : option page :=
  match ws with
  | [] => ss
  | w :: rest => page_runs rest (fst (page_script w ss))
  end.

End Page.


(** An environment with a key, and some input events and widget values. *)
Definition stub_environ : gmap string string := <["OPENAI_API_KEY" := "test_key"]> ∅.

Definition stub_events : list stdin_event :=
  [Line "  Hello "; Line "HISTORY"; Line "   "; Eof; Line "Reset"; Line "Why?";
   Line "Quit"; Line "never read"].


(** ASCII stand-ins for the string methods, for examples. *)
Definition ascii_lower_char (a : Ascii.ascii) : Ascii.ascii :=
  let n := Ascii.nat_of_ascii a in
  if (65 <=? n) && (n <=? 90) then Ascii.ascii_of_nat (n + 32) else a.

Fixpoint ascii_lower (s : string) : string :=
  match s with
  | EmptyString => EmptyString
  | String a rest => String (ascii_lower_char a) (ascii_lower rest)
  end.

Definition ascii_capitalize (s : string) : string :=
  match s with
  | EmptyString => EmptyString
  | String a rest =>
      let n := Ascii.nat_of_ascii a in
      String (if (97 <=? n) && (n <=? 122) then Ascii.ascii_of_nat (n - 32) else a)
             (ascii_lower rest)
  end.

Fixpoint strip_left (s : string) : string :=
  match s with
  | String a rest => if decide (a = Ascii.ascii_of_nat 32) then strip_left rest else s
  | EmptyString => EmptyString
  end.

Definition ascii_strip (s : string) : string :=
  String.rev (strip_left (String.rev (strip_left s))).

(** ** Stepping through the monad *)

Lemma mbind_eq {A B} (m : M A) (f : A → M B) (st : state) :
  (m ≫= f) st =
  match m st with
  | (Ok a, st') => f a st'
  | (Raise e, st') => (Raise e, st')
  | (RaiseBase b, st') => (RaiseBase b, st')
  end.
Proof. reflexivity. Qed.

Lemma mbind_ok {A B} (m : M A) (f : A → M B) (st st' : state) (a : A) :
  m st = (Ok a, st') → (m ≫= f) st = f a st'.
Proof. intros H. by rewrite mbind_eq, H. Qed.

Lemma fresh_heap_None (h : gmap loc object) : h !! fresh (dom h) = None.
Proof. apply not_elem_of_dom, is_fresh. Qed.

Lemma load_session_ok (st : state) (l : loc) (s : EssaySession) :
  heap st !! l = Some (OEssaySession s) → load_session l st = (Ok s, st).
Proof. intros H. unfold load_session. by rewrite H. Qed.

Lemma load_list_ok (st : state) (l : loc) (items : list loc) :
  heap st !! l = Some (OList items) → load_list l st = (Ok items, st).
Proof. intros H. unfold load_list. by rewrite H. Qed.

Lemma sessions_contains_eq (st : state) (sid : string) :
  sessions_contains sid st = (Ok (bool_decide (is_Some (sessions st !! sid))), st).
Proof. reflexivity. Qed.

(** ** Message lists in the heap *)

Lemma msgs_at_insert (h : gmap loc object) items vals (k : loc) (o : object) :
  msgs_at h items vals → (∀ v, h !! k ≠ Some (OMessage v)) →
  msgs_at (<[k := o]> h) items vals.
Proof.
  intros H Hk. eapply Forall2_impl; [exact H|].
  intros l v Hl. cbn beta. rewrite lookup_insert_ne; [done|].
  intros ->. exact (Hk _ Hl).
Qed.

Lemma msgs_at_frame (h h' : gmap loc object) items vals (k : loc) :
  msgs_at h items vals → frame h h' k → (∀ v, h !! k ≠ Some (OMessage v)) →
  msgs_at h' items vals.
Proof.
  intros H Hf Hk. eapply Forall2_impl; [exact H|].
  intros l v Hl. cbn beta. apply (Hf _ _ Hl). intros ->. exact (Hk _ Hl).
Qed.

Lemma msgs_at_subseteq (h h' : gmap loc object) items vals :
  msgs_at h items vals → h ⊆ h' → msgs_at h' items vals.
Proof.
  intros H Hsub. eapply Forall2_impl; [exact H|].
  intros l v Hl. cbn beta. exact (lookup_weaken _ _ _ _ Hl Hsub).
Qed.

Lemma msgs_at_slice (h : gmap loc object) items vals (z : Z) :
  msgs_at h items vals → msgs_at h (slice_from z items) (slice_from z vals).
Proof.
  intros H. unfold slice_from. rewrite (Forall2_length _ _ _ H).
  by apply Forall2_drop.
Qed.

Lemma msgs_at_inj (h : gmap loc object) items vals vals' :
  msgs_at h items vals → msgs_at h items vals' → vals = vals'.
Proof.
  intros H. revert vals'. induction H as [|l v items vals Hl _ IH]; intros vals' H'.
  - by inversion H'.
  - inversion H' as [|? v' ? vals'' Hl' Hrest]; subst.
    rewrite Hl in Hl'. injection Hl' as ->. f_equal. by apply IH.
Qed.

Lemma read_messages_ok (h : gmap loc object) (r : loc) items vals :
  h !! r = Some (OList items) → msgs_at h items vals →
  read_messages h r = Some vals.
Proof.
  intros Hr H. unfold read_messages. rewrite Hr. clear Hr.
  induction H as [|l v items vals Hl _ IH]; [done|].
  cbn. rewrite Hl. cbn. rewrite IH. done.
Qed.

Lemma mapM_load_messages (st : state) items vals :
  msgs_at (heap st) items vals →
  mapM (λ l, msg ← load_message l; mret (to_chat_message msg)) items st
  = (Ok (to_chat_message <$> vals), st).
Proof.
  induction 1 as [|l v items vals Hl _ IH]; [done|].
  cbn. rewrite mbind_eq, mbind_eq. unfold load_message at 1. rewrite Hl.
  cbn. rewrite mbind_eq, IH. done.
Qed.

Lemma slice_from_last {A} (l : list A) :
  slice_from (-10) l = drop (length l - 10) l.
Proof. unfold slice_from. cbn. f_equal. lia. Qed.

Lemma holds_inj (h : gmap loc object) (l : loc) s s' vals vals' :
  holds h l s vals → holds h l s' vals' → s = s' ∧ vals = vals'.
Proof.
  intros [Hl (items & Hi & Hm)] [Hl' (items' & Hi' & Hm')].
  rewrite Hl in Hl'. injection Hl' as <-.
  rewrite Hi in Hi'. injection Hi' as <-.
  split; [done|]. by eapply msgs_at_inj.
Qed.

(** ** The store operations on well-formed states *)

Lemma new_EssaySession_spec (st : state) (sid : string) :
  ∃ st' l lm,
    new_EssaySession sid st = (Ok l, st') ∧
    heap st !! l = None ∧
    holds (heap st') l (mkEssaySession sid PyNone lm "topic_selection") [] ∧
    heap st ⊆ heap st' ∧
    sessions st' = sessions st ∧ ticks st' = ticks st ∧ sent st' = sent st.
Proof.
  set (lm := fresh (dom (heap st))).
  set (h1 := <[lm := OList []]> (heap st)).
  set (l := fresh (dom h1)).
  exists (mkState (<[l := OEssaySession (mkEssaySession sid PyNone lm "topic_selection")]> h1)
            (sessions st) (ticks st) (sent st)), l, lm.
  assert (Hlm : heap st !! lm = None) by apply fresh_heap_None.
  assert (Hl : h1 !! l = None) by apply fresh_heap_None.
  assert (Hne : l ≠ lm).
  { intros E. rewrite E in Hl. unfold h1 in Hl. by rewrite lookup_insert_eq in Hl. }
  assert (Hl0 : heap st !! l = None).
  { unfold h1 in Hl. by rewrite lookup_insert_ne in Hl. }
  split; [reflexivity|]. split; [done|]. split.
  - split; cbn.
    + by rewrite lookup_insert_eq.
    + exists []. split; [|constructor].
      rewrite lookup_insert_ne by done. unfold h1. by rewrite lookup_insert_eq.
  - cbn. split; [|done].
    etrans; [apply (insert_subseteq _ lm (OList [])); exact Hlm|].
    by apply insert_subseteq.
Qed.

Lemma holds_subseteq (h h' : gmap loc object) l s vals :
  holds h l s vals → h ⊆ h' → holds h' l s vals.
Proof.
  intros [Hl (items & Hi & Hm)] Hsub. split.
  - exact (lookup_weaken _ _ _ _ Hl Hsub).
  - exists items. split; [exact (lookup_weaken _ _ _ _ Hi Hsub)|].
    by eapply msgs_at_subseteq.
Qed.

Lemma wf_init : wf init_state.
Proof. intros sid l H. cbn in H. by rewrite lookup_empty in H. Qed.

Lemma key_inv_init : key_inv init_state.
Proof. intros sid l H. cbn in H. by rewrite lookup_empty in H. Qed.

Lemma wf_subseteq (st st' : state) :
  wf st → heap st ⊆ heap st' → sessions st' = sessions st → wf st'.
Proof.
  intros Hwf Hsub Hs sid l Hl. rewrite Hs in Hl.
  destruct (Hwf _ _ Hl) as (s & vals & H). exists s, vals.
  by eapply holds_subseteq.
Qed.

Lemma create_session_spec (st : state) (sid : string) :
  ∃ st' l lm,
    create_session sid st = (Ok l, st') ∧
    heap st !! l = None ∧
    holds (heap st') l (mkEssaySession sid PyNone lm "topic_selection") [] ∧
    heap st ⊆ heap st' ∧
    sessions st' = <[sid := l]> (sessions st) ∧
    ticks st' = ticks st ∧ sent st' = sent st.
Proof.
  destruct (new_EssaySession_spec st sid) as (st1 & l & lm & Hrun & Hl & Hh & Hsub & Hs & Ht & Hn).
  exists (mkState (heap st1) (<[sid := l]> (sessions st1)) (ticks st1) (sent st1)), l, lm.
  split.
  { unfold create_session. by rewrite (mbind_ok _ _ _ _ _ Hrun). }
  cbn. by rewrite Hs.
Qed.

Lemma wf_insert_session (st st' : state) (sid : string) (l : loc) s vals :
  wf st → heap st ⊆ heap st' → holds (heap st') l s vals →
  sessions st' = <[sid := l]> (sessions st) → wf st'.
Proof.
  intros Hwf Hsub Hh Hs sid' l' Hl'. rewrite Hs in Hl'.
  destruct (decide (sid = sid')) as [->|Hne].
  - rewrite lookup_insert_eq in Hl'. injection Hl' as <-. by exists s, vals.
  - rewrite lookup_insert_ne in Hl' by done.
    destruct (Hwf _ _ Hl') as (s' & vals' & H). exists s', vals'.
    by eapply holds_subseteq.
Qed.

Lemma key_inv_insert_session (st st' : state) (sid : string) (l : loc) s :
  key_inv st → heap st ⊆ heap st' →
  heap st' !! l = Some (OEssaySession s) → session_id s = sid →
  sessions st' = <[sid := l]> (sessions st) → key_inv st'.
Proof.
  intros Hk Hsub Hl Hid Hs sid' l' Hl'. rewrite Hs in Hl'.
  destruct (decide (sid = sid')) as [->|Hne].
  - rewrite lookup_insert_eq in Hl'. injection Hl' as <-. by exists s.
  - rewrite lookup_insert_ne in Hl' by done.
    destruct (Hk _ _ Hl') as (s' & H & Hid'). exists s'.
    split; [exact (lookup_weaken _ _ _ _ H Hsub)|done].
Qed.

(** ** One turn *)

Section Turn.

Variable clock : nat → datetime.
Variable remote : nat → request → result ChatCompletion.

Lemma append_message_spec (st : state) (l : loc) s vals (r : string) (c : pyval) :
  holds (heap st) l s vals →
  ∃ st',
    append_message clock l r c st = (Ok tt, st') ∧
    holds (heap st') l s (vals ++ [mkMessage r c (clock (ticks st))]) ∧
    frame (heap st) (heap st') (messages s) ∧
    (∃ items, heap st' !! messages s = Some (OList items)) ∧
    sessions st' = sessions st ∧ ticks st' = S (ticks st) ∧ sent st' = sent st.
Proof.
  intros [Hl (items & Hi & Hm)].
  set (m := fresh (dom (heap st))).
  set (msg := mkMessage r c (clock (ticks st))).
  set (h1 := <[m := OMessage msg]> (heap st)).
  assert (Hm0 : heap st !! m = None) by apply fresh_heap_None.
  assert (Hml : m ≠ l) by (intros E; rewrite E in Hm0; congruence).
  assert (Hmk : m ≠ messages s) by (intros E; rewrite E in Hm0; congruence).
  assert (Hlk : l ≠ messages s) by (intros E; rewrite E in Hl; congruence).
  exists (mkState (<[messages s := OList (items ++ [m])]> h1)
            (sessions st) (S (ticks st)) (sent st)).
  split.
  { unfold append_message.
    rewrite (mbind_ok _ _ _ _ _ (load_session_ok _ _ _ Hl)).
    rewrite (mbind_ok _ _ _ _ _ (load_list_ok _ _ _ Hi)).
    rewrite mbind_eq. cbn [datetime_now]. rewrite mbind_eq. cbn [alloc heap sessions ticks sent].
    unfold list_append. fold m. fold msg. fold h1.
    rewrite mbind_eq, (load_list_ok _ _ items); [reflexivity|].
    cbn. unfold h1. by rewrite lookup_insert_ne. }
  cbn. split; [|split; [|split; [|done]]].
  - split.
    + rewrite lookup_insert_ne by done. unfold h1. by rewrite lookup_insert_ne.
    + exists (items ++ [m]). split; [by rewrite lookup_insert_eq|].
      apply Forall2_app.
      * apply msgs_at_insert.
        -- apply msgs_at_insert; [done|]. intros v. by rewrite Hm0.
        -- intros v. unfold h1. rewrite lookup_insert_ne by done. by rewrite Hi.
      * constructor; [|constructor].
        rewrite lookup_insert_ne by done. unfold h1. by rewrite lookup_insert_eq.
  - intros k' o Hk' Hne. rewrite lookup_insert_ne by done.
    unfold h1. rewrite lookup_insert_ne; [done|].
    intros E. rewrite <- E in Hk'. congruence.
  - exists (items ++ [m]). by rewrite lookup_insert_eq.
Qed.

(** A turn on a session that exists: the reply, the two messages added to
    the session's log, and the request that was sent. *)
Lemma get_response_known (st : state) (sid text : string) (l : loc) s vals :
  sessions st !! sid = Some l → holds (heap st) l s vals →
  let u := mkMessage "user" (PyStr text) (clock (ticks st)) in
  let req := request_for (vals ++ [u]) in
  let outcome := outcome_of (remote (length (sent st)) req) in
  let added := replies_of outcome (clock (S (ticks st))) in
  ∃ st',
    get_response clock remote sid text st = (outcome, st') ∧
    holds (heap st') l s (vals ++ u :: added) ∧
    frame (heap st) (heap st') (messages s) ∧
    sessions st' = sessions st ∧
    ticks st' = S (ticks st) + length added ∧
    sent st' = sent st ++ [req].
Proof.
  intros Hsid Hh u req.
  destruct (append_message_spec st l s vals "user" (PyStr text) Hh)
    as (st1 & Hrun1 & Hh1 & Hf1 & _ & Hs1 & Ht1 & Hn1).
  fold u in Hh1.
  pose proof Hh1 as [Hl1 (items1 & Hi1 & Hm1)].
  set (st2 := mkState (heap st1) (sessions st1) (ticks st1) (sent st1 ++ [req])).
  assert (Hh2 : holds (heap st2) l s (vals ++ [u])) by exact Hh1.
  assert (Hpre :
    get_response clock remote sid text st =
    try_except
      (response ← chat_completions_create remote req;
       choice ← list_getitem0 (choices response);
       _ ← append_message clock l "assistant" (message_content (message choice));
       mret (message_content (message choice)))
      (λ e, _ ← append_message clock l "assistant" (PyStr (error_prefix +:+ exc_str e));
            mret (PyStr (error_prefix +:+ exc_str e))) st1).
  { unfold get_response.
    rewrite mbind_eq, sessions_contains_eq, Hsid.
    rewrite bool_decide_true by eauto. cbn [negb].
    rewrite mbind_eq. cbn [mret M_ret].
    rewrite mbind_eq. unfold sessions_getitem at 1. rewrite Hsid.
    rewrite (mbind_ok _ _ _ _ _ Hrun1).
    rewrite (mbind_ok _ _ _ _ _ (load_session_ok _ _ _ Hl1)).
    rewrite (mbind_ok _ _ _ _ _ (load_list_ok _ _ _ Hi1)).
    rewrite (mbind_ok _ _ _ _ _ (mapM_load_messages _ _ _ (msgs_at_slice _ _ _ (-10) Hm1))).
    reflexivity. }
  rewrite Hpre. clear Hpre.
  unfold try_except. rewrite mbind_eq. unfold chat_completions_create. fold st2.
  rewrite Hn1.
  (* a turn that comes to the reply [reply] *)
  assert (Hreply : ∀ reply,
    ∃ st3,
      append_message clock l "assistant" reply st2 = (Ok tt, st3) ∧
      holds (heap st3) l s (vals ++ [u; mkMessage "assistant" reply (clock (S (ticks st)))]) ∧
      frame (heap st) (heap st3) (messages s) ∧
      sessions st3 = sessions st ∧
      ticks st3 = S (ticks st) + 1 ∧
      sent st3 = sent st ++ [req]).
  { intros reply.
    destruct (append_message_spec st2 l s (vals ++ [u]) "assistant" reply Hh2)
      as (st3 & Hrun3 & Hh3 & Hf3 & _ & Hs3 & Ht3 & Hn3).
    exists st3. split; [done|]. split; [|split; [|split; [|split]]].
    - rewrite <- (assoc_L (++)) in Hh3. cbn in Hh3. by rewrite Ht1 in Hh3.
    - intros k' o Hk' Hne. apply Hf3; [|done]. exact (Hf1 _ _ Hk' Hne).
    - rewrite Hs3. exact Hs1.
    - rewrite Ht3. unfold st2. cbn. rewrite Ht1. lia.
    - rewrite Hn3. unfold st2. cbn. by rewrite Hn1. }
  destruct (remote (length (sent st)) req) as [response|e|b]; cbn [outcome_of].
  - destruct (choices response) as [|choice rest]; cbn [list_getitem0 replies_of].
    + destruct (Hreply (PyStr (error_prefix +:+ "list index out of range")))
        as (st3 & Hrun3 & Hrest).
      exists st3. split; [|exact Hrest].
      rewrite mbind_eq. unfold raise, IndexError. cbn [exc_str].
      by rewrite (mbind_ok _ _ _ _ _ Hrun3).
    + destruct (Hreply (message_content (message choice))) as (st3 & Hrun3 & Hrest).
      exists st3. split; [|exact Hrest].
      rewrite mbind_eq. cbn [mret M_ret]. by rewrite (mbind_ok _ _ _ _ _ Hrun3).
  - destruct (Hreply (PyStr (error_prefix +:+ exc_str e))) as (st3 & Hrun3 & Hrest).
    exists st3. cbn [replies_of]. split; [|exact Hrest].
    by rewrite (mbind_ok _ _ _ _ _ Hrun3).
  - exists st2. cbn [replies_of length]. split; [done|]. split; [exact Hh1|].
    split; [exact Hf1|]. split; [exact Hs1|]. split; [|by unfold st2; cbn; rewrite Hn1].
    unfold st2. cbn. rewrite Ht1. lia.
Qed.

End Turn.

(** ** Reading the store *)

Lemma get_session_history_known (st : state) (sid : string) (l : loc) s items :
  sessions st !! sid = Some l →
  heap st !! l = Some (OEssaySession s) →
  heap st !! messages s = Some (OList items) →
  get_session_history sid st
  = (Ok (fresh (dom (heap st))),
     mkState (<[fresh (dom (heap st)) := OList items]> (heap st))
       (sessions st) (ticks st) (sent st)).
Proof.
  intros Hsid Hl Hi. unfold get_session_history.
  rewrite mbind_eq, sessions_contains_eq, Hsid.
  rewrite bool_decide_true by eauto. cbn [negb].
  rewrite mbind_eq. unfold sessions_getitem. rewrite Hsid.
  rewrite (mbind_ok _ _ _ _ _ (load_session_ok _ _ _ Hl)).
  unfold list_copy. by rewrite (mbind_ok _ _ _ _ _ (load_list_ok _ _ _ Hi)).
Qed.

Lemma get_session_history_unknown (st : state) (sid : string) :
  sessions st !! sid = None →
  get_session_history sid st
  = (Ok (fresh (dom (heap st))),
     mkState (<[fresh (dom (heap st)) := OList []]> (heap st))
       (sessions st) (ticks st) (sent st)).
Proof.
  intros Hsid. unfold get_session_history.
  rewrite mbind_eq, sessions_contains_eq, Hsid.
  by rewrite bool_decide_false by (intros [? ?]; done).
Qed.

Lemma history_known (st : state) (sid : string) (l : loc) s vals :
  sessions st !! sid = Some l → holds (heap st) l s vals →
  history st sid = Some vals.
Proof.
  intros Hsid [Hl (items & Hi & Hm)].
  unfold history. rewrite (get_session_history_known st sid l s items Hsid Hl Hi).
  cbn [heap].
  apply read_messages_ok with items; [by rewrite lookup_insert_eq|].
  apply msgs_at_insert; [done|]. intros v. by rewrite fresh_heap_None.
Qed.

Lemma history_unknown (st : state) (sid : string) :
  sessions st !! sid = None → history st sid = Some [].
Proof.
  intros Hsid. unfold history. rewrite (get_session_history_unknown st sid Hsid).
  cbn [heap]. unfold read_messages. by rewrite lookup_insert_eq.
Qed.

Lemma session_info_known (st : state) (sid : string) (l : loc) s :
  sessions st !! sid = Some l → heap st !! l = Some (OEssaySession s) →
  session_info st sid = Some s.
Proof.
  intros Hsid Hl. unfold session_info, get_session_info, sessions_get.
  by rewrite Hsid, Hl.
Qed.

Lemma info_absent_iff (st : state) (sid : string) :
  info_absent st sid ↔ sessions st !! sid = None.
Proof.
  unfold info_absent, get_session_info, sessions_get. cbn.
  split; [by intros [= ->]|by intros ->].
Qed.

(** ** Invariants across an append *)

Lemma wf_frame (st st' : state) (l : loc) s vals vals' :
  wf st → holds (heap st) l s vals → holds (heap st') l s vals' →
  frame (heap st) (heap st') (messages s) → sessions st' = sessions st → wf st'.
Proof.
  intros Hwf [Hl (items & Hi & Hm)] [Hl' (items' & Hi' & Hm')] Hf Hs sid' l' Hsid'.
  rewrite Hs in Hsid'.
  destruct (Hwf _ _ Hsid') as (s' & vals0 & Hl0 & items0 & Hi0 & Hm0).
  assert (Hne : l' ≠ messages s) by (intros E; rewrite E in Hl0; congruence).
  destruct (decide (messages s' = messages s)) as [E|Hne'].
  - exists s', vals'. split; [exact (Hf _ _ Hl0 Hne)|].
    exists items'. by rewrite E.
  - exists s', vals0. split; [exact (Hf _ _ Hl0 Hne)|].
    exists items0. split; [exact (Hf _ _ Hi0 Hne')|].
    eapply msgs_at_frame; [exact Hm0|exact Hf|]. intros v. by rewrite Hi.
Qed.

Lemma key_inv_frame (st st' : state) (k : loc) items :
  key_inv st → heap st !! k = Some (OList items) →
  frame (heap st) (heap st') k → sessions st' = sessions st → key_inv st'.
Proof.
  intros Hk Hi Hf Hs sid l Hsid. rewrite Hs in Hsid.
  destruct (Hk _ _ Hsid) as (s & Hl & Hid). exists s. split; [|done].
  apply (Hf _ _ Hl). intros E. rewrite E in Hl. congruence.
Qed.

(** ** A turn on any well-formed state *)

Section Respond.

Variable clock : nat → datetime.
Variable remote : nat → request → result ChatCompletion.

(** On an unknown id the turn is the turn on the state [create_session]
    leaves. *)
Lemma get_response_unknown (st st0 : state) (sid text : string) (l : loc) :
  sessions st !! sid = None →
  create_session sid st = (Ok l, st0) →
  sessions st0 !! sid = Some l →
  get_response clock remote sid text st = get_response clock remote sid text st0.
Proof.
  intros Hsid Hrun Hsid0. unfold get_response.
  rewrite !(mbind_eq (sessions_contains sid)), !sessions_contains_eq, Hsid, Hsid0.
  rewrite bool_decide_false by (intros [? ?]; done).
  rewrite bool_decide_true by eauto. cbn [negb].
  rewrite (mbind_eq (_ ← create_session sid; mret ())).
  rewrite (mbind_ok _ _ _ _ _ Hrun). cbn [mret M_ret].
  rewrite (mbind_eq (λ st, (Ok (), st))). reflexivity.
Qed.

Lemma get_response_spec (st : state) (sid text : string) :
  wf st →
  ∃ old st' l s,
    history st sid = Some old ∧
    let u := mkMessage "user" (PyStr text) (clock (ticks st)) in
    let req := request_for (old ++ [u]) in
    let outcome := outcome_of (remote (length (sent st)) req) in
    let added := replies_of outcome (clock (S (ticks st))) in
    get_response clock remote sid text st = (outcome, st') ∧
    wf st' ∧
    sessions st' = <[sid := l]> (sessions st) ∧
    holds (heap st') l s (old ++ u :: added) ∧
    match sessions st !! sid with
    | Some l0 => l0 = l ∧ heap st !! l = Some (OEssaySession s)
    | None => ∃ lm, s = mkEssaySession sid PyNone lm "topic_selection"
    end ∧
    (key_inv st → key_inv st') ∧
    (∀ k s0, heap st !! k = Some (OEssaySession s0) →
             heap st' !! k = Some (OEssaySession s0)) ∧
    ticks st' = S (ticks st) + length added ∧
    sent st' = sent st ++ [req].
Proof.
  intros Hwf. destruct (sessions st !! sid) as [l|] eqn:Hsid.
  - destruct (Hwf _ _ Hsid) as (s & vals & Hh).
    destruct (get_response_known clock remote st sid text l s vals Hsid Hh)
      as (st' & Hrun & Hh' & Hf & Hs & Ht & Hn).
    exists vals, st', l, s.
    split; [by eapply history_known|]. cbv zeta.
    split; [exact Hrun|].
    split; [by eapply wf_frame|].
    split; [by rewrite Hs, insert_id|].
    split; [exact Hh'|].
    split; [split; [done|apply Hh]|].
    destruct Hh as [_ (items & Hi & _)].
    split; [intros Hk; by eapply key_inv_frame|].
    split; [|done].
    intros k s0 Hk0. apply (Hf _ _ Hk0). intros E. rewrite E in Hk0. congruence.
  - destruct (create_session_spec st sid)
      as (st0 & l & lm & Hrun0 & Hl0 & Hh0 & Hsub & Hs0 & Ht0 & Hn0).
    set (s := mkEssaySession sid PyNone lm "topic_selection") in *.
    assert (Hsid0 : sessions st0 !! sid = Some l) by (by rewrite Hs0, lookup_insert_eq).
    assert (Hwf0 : wf st0) by (by eapply wf_insert_session).
    destruct (get_response_known clock remote st0 sid text l s [] Hsid0 Hh0)
      as (st' & Hrun & Hh' & Hf & Hs & Ht & Hn).
    rewrite Ht0, Hn0 in *.
    exists [], st', l, s.
    split; [by apply history_unknown|]. cbv zeta.
    split; [by rewrite (get_response_unknown st st0 sid text l)|].
    split; [by eapply wf_frame|].
    split; [by rewrite Hs, Hs0|].
    split; [exact Hh'|].
    split; [by exists lm|].
    destruct Hh0 as [Hl1 (items & Hi & _)].
    split.
    { intros Hk.
      assert (Hk0 : key_inv st0).
      { eapply key_inv_insert_session; [exact Hk|exact Hsub|exact Hl1|done|exact Hs0]. }
      by eapply key_inv_frame. }
    split; [|done].
    intros k s0 Hk0. pose proof (lookup_weaken _ _ _ _ Hk0 Hsub) as Hk1.
    apply (Hf _ _ Hk1). intros E. rewrite E in Hk1. unfold s in *. cbn in *. congruence.
Qed.

End Respond.

(** ** Reset *)

Lemma reset_session_known (st : state) (sid : string) :
  is_Some (sessions st !! sid) →
  ∃ st' l lm,
    reset_session sid st = (Ok true, st') ∧
    heap st !! l = None ∧
    holds (heap st') l (mkEssaySession sid PyNone lm "topic_selection") [] ∧
    heap st ⊆ heap st' ∧
    sessions st' = <[sid := l]> (sessions st) ∧
    ticks st' = ticks st ∧ sent st' = sent st.
Proof.
  intros Hsid.
  destruct (new_EssaySession_spec st sid) as (st1 & l & lm & Hrun & Hl & Hh & Hsub & Hs & Ht & Hn).
  exists (mkState (heap st1) (<[sid := l]> (sessions st1)) (ticks st1) (sent st1)), l, lm.
  split.
  { unfold reset_session. rewrite mbind_eq, sessions_contains_eq.
    rewrite bool_decide_true by done. by rewrite (mbind_ok _ _ _ _ _ Hrun). }
  cbn. by rewrite Hs.
Qed.

Lemma reset_session_unknown (st : state) (sid : string) :
  sessions st !! sid = None → reset_session sid st = (Ok false, st).
Proof.
  intros Hsid. unfold reset_session. rewrite mbind_eq, sessions_contains_eq, Hsid.
  by rewrite bool_decide_false by (intros [? ?]; done).
Qed.

Lemma wf_create_session (st : state) (sid : string) :
  wf st → wf (snd (create_session sid st)).
Proof.
  intros Hwf.
  destruct (create_session_spec st sid) as (st' & l & lm & Hrun & _ & Hh & Hsub & Hs & _).
  rewrite Hrun. cbn [snd]. by eapply wf_insert_session.
Qed.

Lemma key_inv_create_session (st : state) (sid : string) :
  key_inv st → key_inv (snd (create_session sid st)).
Proof.
  intros Hk.
  destruct (create_session_spec st sid) as (st' & l & lm & Hrun & _ & Hh & Hsub & Hs & _).
  rewrite Hrun. cbn [snd].
  eapply key_inv_insert_session; [exact Hk|exact Hsub|apply Hh|done|exact Hs].
Qed.

Lemma wf_reset_session (st : state) (sid : string) :
  wf st → wf (snd (reset_session sid st)).
Proof.
  intros Hwf. destruct (sessions st !! sid) as [l0|] eqn:Hsid.
  - destruct (reset_session_known st sid) as (st' & l & lm & Hrun & _ & Hh & Hsub & Hs & _);
      [by eauto|].
    rewrite Hrun. cbn [snd]. by eapply wf_insert_session.
  - by rewrite (reset_session_unknown st sid Hsid).
Qed.

Lemma key_inv_reset_session (st : state) (sid : string) :
  key_inv st → key_inv (snd (reset_session sid st)).
Proof.
  intros Hk. destruct (sessions st !! sid) as [l0|] eqn:Hsid.
  - destruct (reset_session_known st sid) as (st' & l & lm & Hrun & _ & Hh & Hsub & Hs & _);
      [by eauto|].
    rewrite Hrun. cbn [snd].
    eapply key_inv_insert_session; [exact Hk|exact Hsub|apply Hh|done|exact Hs].
  - by rewrite (reset_session_unknown st sid Hsid).
Qed.

(** ** A turn, as callers observe it *)

Lemma outcome_of_completes (answer : result ChatCompletion) :
  (∀ b, answer ≠ RaiseBase b) → ∃ reply, outcome_of answer = Ok reply.
Proof.
  destruct answer as [response|e|b]; cbn; intros H.
  - destruct (choices response); eauto.
  - eauto.
  - by destruct (H b).
Qed.


Section Observed.

Variable clock : nat → datetime.
Variable remote : nat → request → result ChatCompletion.

Lemma get_response_history (st : state) (sid text : string) :
  wf st →
  ∃ old st',
    history st sid = Some old ∧
    let u := mkMessage "user" (PyStr text) (clock (ticks st)) in
    let req := request_for (old ++ [u]) in
    let outcome := outcome_of (remote (length (sent st)) req) in
    let added := replies_of outcome (clock (S (ticks st))) in
    get_response clock remote sid text st = (outcome, st') ∧
    wf st' ∧
    history st' sid = Some (old ++ u :: added) ∧
    ticks st' = S (ticks st) + length added ∧
    sent st' = sent st ++ [req].
Proof.
  intros Hwf.
  destruct (get_response_spec clock remote st sid text Hwf)
    as (old & st' & l & s & Hold & Hrun & Hwf' & Hs & Hh & _ & _ & _ & Ht & Hn).
  exists old, st'. split; [done|]. cbv zeta.
  split; [done|]. split; [done|]. split; [|done].
  eapply history_known; [|exact Hh]. by rewrite Hs, lookup_insert_eq.
Qed.


End Observed.

(** ** Construction *)

(** C5: constructing the tutor with no [api_key] argument and no
    [OPENAI_API_KEY] in the environment raises at once (the code's
    [ValueError]), before the client is constructed; no tutor state is
    produced. *)
Theorem init_without_credential_fails (AsyncOpenAI : pyval → result unit)
    (environ : gmap string string) :
  environ !! "OPENAI_API_KEY" = None →
  EssayTutor_init AsyncOpenAI PyNone environ
  = Raise (ValueError "OpenAI API key is required. Set OPENAI_API_KEY environment variable or pass it to the constructor.").
Proof.
  intros Henv. unfold EssayTutor_init, os_getenv. by rewrite Henv.
Qed.

Lemma init_without_credential_fails_witness :
  EssayTutor_init stub_AsyncOpenAI PyNone ∅
  = Raise (ValueError "OpenAI API key is required. Set OPENAI_API_KEY environment variable or pass it to the constructor.").
Proof.
  apply (init_without_credential_fails stub_AsyncOpenAI ∅). reflexivity.
Defined.

Lemma init_with_credential (AsyncOpenAI : pyval → result unit)
    (key : string) (environ : gmap string string) :
  key ≠ "" → AsyncOpenAI (PyStr key) = Ok tt →
  EssayTutor_init AsyncOpenAI (PyStr key) environ = Ok (PyStr key, init_state).
Proof.
  intros Hk Hc. unfold EssayTutor_init, py_or. destruct key; [done|].
  cbn. by rewrite Hc.
Qed.

Lemma init_with_environment (AsyncOpenAI : pyval → result unit)
    (key : string) (environ : gmap string string) :
  key ≠ "" → environ !! "OPENAI_API_KEY" = Some key →
  AsyncOpenAI (PyStr key) = Ok tt →
  EssayTutor_init AsyncOpenAI PyNone environ = Ok (PyStr key, init_state).
Proof.
  intros Hk Henv Hc. unfold EssayTutor_init, os_getenv, py_or. rewrite Henv.
  destruct key; [done|]. cbn. by rewrite Hc.
Qed.

(** ** Reset *)

(** C6: resetting a session that exists returns true and puts a new empty
    session under the same id: the history is empty, the stage is the
    initial one and the topic is cleared. *)
Theorem reset_existing_session (st : state) (sid : string) :
  is_Some (sessions st !! sid) →
  ∃ st',
    reset_session sid st = (Ok true, st') ∧
    history st' sid = Some [] ∧
    ∃ s, session_info st' sid = Some s ∧
         session_id s = sid ∧ topic s = PyNone ∧
         current_stage s = "topic_selection".
Proof.
  intros Hsid.
  destruct (reset_session_known st sid Hsid) as (st' & l & lm & Hrun & _ & Hh & _ & Hs & _).
  assert (Hl : sessions st' !! sid = Some l) by (by rewrite Hs, lookup_insert_eq).
  exists st'. split; [done|]. split; [by eapply history_known|].
  eexists. split; [eapply session_info_known; [exact Hl|apply Hh]|done].
Qed.

Lemma reset_existing_session_witness :
  ∃ st',
    reset_session "s1" one_session = (Ok true, st') ∧
    history st' "s1" = Some [] ∧
    ∃ s, session_info st' "s1" = Some s ∧
         session_id s = "s1" ∧ topic s = PyNone ∧
         current_stage s = "topic_selection".
Proof.
  apply (reset_existing_session one_session "s1").
  eexists. vm_compute. reflexivity.
Defined.

(** C7: resetting an unknown id returns false and leaves the whole state as
    it was; [sessionInfo] still reports absent. *)
Theorem reset_unknown_session (st : state) (sid : string) :
  sessions st !! sid = None →
  reset_session sid st = (Ok false, st) ∧
  info_absent (snd (reset_session sid st)) sid.
Proof.
  intros Hsid. rewrite (reset_session_unknown st sid Hsid).
  split; [done|]. by apply info_absent_iff.
Qed.

Lemma reset_unknown_session_witness :
  reset_session "s2" one_session = (Ok false, one_session) ∧
  info_absent (snd (reset_session "s2" one_session)) "s2".
Proof.
  apply (reset_unknown_session one_session "s2"). vm_compute. reflexivity.
Defined.

(** ** Turns *)

Lemma wf_one_session : wf one_session.
Proof. apply wf_create_session, wf_init. Qed.

Lemma slice_from_last_n {A} (l : list A) :
  slice_from (-10) l = last_n (min (length l) 10) l.
Proof. rewrite slice_from_last. unfold last_n. f_equal. lia. Qed.

Lemma last_n_length {A} (n : nat) (l : list A) :
  n ≤ length l → length (last_n n l) = n.
Proof. intros H. unfold last_n. rewrite length_drop. lia. Qed.

Lemma last_n_suffix {A} (n : nat) (l : list A) :
  l = take (length l - n) l ++ last_n n l.
Proof. unfold last_n. by rewrite take_drop. Qed.

Lemma prefix_append (p s : string) : String.prefix p (p +:+ s) = true.
Proof.
  induction p as [|a p IH].
  - by destruct s.
  - change (String.prefix (String a p) (String a p +:+ s))
      with (if Ascii.ascii_dec a a then String.prefix p (p +:+ s) else false).
    destruct (Ascii.ascii_dec a a) as [_|Hne]; [exact IH|by destruct Hne].
Qed.

(** C1: when the call of the completion service raises, [respond] returns
    normally: the text it returns is the fixed prefix followed by the
    error's description, and the session's history ends with the user
    message followed by an assistant message holding that same text. *)
Theorem respond_swallows_remote_failure
    (clock : nat → datetime) (remote : nat → request → result ChatCompletion)
    (st : state) (sid text : string) (old : list Message) (e : Exception) :
  wf st →
  history st sid = Some old →
  remote (length (sent st))
    (request_for (old ++ [mkMessage "user" (PyStr text) (clock (ticks st))]))
  = Raise e →
  ∃ st',
    get_response clock remote sid text st
    = (Ok (PyStr (error_prefix +:+ exc_str e)), st') ∧
    String.prefix error_prefix (error_prefix +:+ exc_str e) = true ∧
    history st' sid
    = Some (old ++ [mkMessage "user" (PyStr text) (clock (ticks st));
                    mkMessage "assistant" (PyStr (error_prefix +:+ exc_str e))
                      (clock (S (ticks st)))]).
Proof.
  intros Hwf Hold Hfail.
  destruct (get_response_history clock remote st sid text Hwf)
    as (old' & st' & Hold' & Hrun & _ & Hhist & _).
  rewrite Hold in Hold'. injection Hold' as <-.
  cbv zeta in Hrun, Hhist. rewrite Hfail in Hrun, Hhist.
  cbn [outcome_of replies_of] in Hrun, Hhist.
  exists st'. split; [exact Hrun|]. split; [apply prefix_append|exact Hhist].
Qed.

Lemma respond_swallows_remote_failure_witness :
  ∃ st',
    get_response stub_clock failing_remote "error_test" "Hello" init_state
    = (Ok (PyStr "Sorry, I encountered an error: API Error"), st') ∧
    String.prefix error_prefix "Sorry, I encountered an error: API Error" = true ∧
    history st' "error_test"
    = Some [mkMessage "user" (PyStr "Hello") 0;
            mkMessage "assistant" (PyStr "Sorry, I encountered an error: API Error") 1].
Proof.
  apply (respond_swallows_remote_failure stub_clock failing_remote init_state
           "error_test" "Hello" [] (mkException "Exception" "API Error")).
  - apply wf_init.
  - vm_compute. reflexivity.
  - reflexivity.
Defined.

(** ** Fresh sessions and runs of turns *)




Lemma echo_remote_completes : always_completes echo_remote.
Proof. intros n req b. discriminate. Qed.


(** The scenario with the echoing stub: [respond("s1", "hi")] returns
    "OK:hi" and the history is the user's "hi" and the assistant's "OK:hi". *)
Example echo_scenario :
  let '(reply, st') := get_response stub_clock echo_remote "s1" "hi" init_state in
  reply = Ok (PyStr "OK:hi") ∧
  fmap (M := list) role_content <$> history st' "s1"
  = Some [("user", PyStr "hi"); ("assistant", PyStr "OK:hi")].
Proof. vm_compute. done. Qed.

(** Six turns on a new tutor: the sixth request carries the system
    instruction and the last ten of the eleven messages stored by then; the
    history keeps all twelve. *)
Example window_after_six_turns :
  let st := snd (respond_all stub_clock echo_remote "s1"
                   ["one"; "two"; "three"; "four"; "five"; "six"] init_state) in
  (λ req, length (req_messages req)) <$> sent st = [2; 4; 6; 8; 10; 11] ∧
  (λ req, cm_content <$> take 2 (req_messages req)) <$> last (sent st)
  = Some [PyStr system_prompt; PyStr "OK:one"] ∧
  length <$> history st "s1" = Some 12.
Proof. vm_compute. done. Qed.

(** ** Topic and stage *)

Lemma session_info_inv (st : state) (sid : string) (s : EssaySession) :
  session_info st sid = Some s →
  ∃ l, sessions st !! sid = Some l ∧ heap st !! l = Some (OEssaySession s).
Proof.
  unfold session_info, get_session_info, sessions_get.
  destruct (sessions st !! sid) as [l|]; [|done].
  destruct (heap st !! l) as [[| |s']|] eqn:Hl; try done.
  intros [= ->]. by exists l.
Qed.

(** C9: a call of [respond] leaves the topic and the stage of every stored
    session as they were, whatever the user's text and the outcome of the
    call are; and it returns text whenever the awaited call completes. *)
Theorem respond_keeps_topic_and_stage
    (clock : nat → datetime) (remote : nat → request → result ChatCompletion)
    (st : state) (sid text : string) :
  wf st →
  ∃ outcome st',
    get_response clock remote sid text st = (outcome, st') ∧
    (always_completes remote → ∃ reply, outcome = Ok reply) ∧
    ∀ sid' s, session_info st sid' = Some s →
      ∃ s', session_info st' sid' = Some s' ∧
            topic s' = topic s ∧ current_stage s' = current_stage s.
Proof.
  intros Hwf.
  destruct (get_response_spec clock remote st sid text Hwf)
    as (old & st' & l & s & _ & Hrun & _ & Hs & _ & Hcase & _ & Hkeep & _).
  cbv zeta in Hrun. eexists _, st'. split; [exact Hrun|]. split.
  { intros Hc. apply outcome_of_completes, Hc. }
  intros sid' s0 Hinfo.
  destruct (session_info_inv _ _ _ Hinfo) as (l' & Hsid' & Hl').
  exists s0. split; [|done].
  apply session_info_known with l'; [|by apply Hkeep].
  rewrite Hs. destruct (decide (sid = sid')) as [->|Hne].
  - rewrite Hsid' in Hcase. destruct Hcase as [-> _]. by rewrite lookup_insert_eq.
  - by rewrite lookup_insert_ne.
Qed.

Lemma respond_keeps_topic_and_stage_witness :
  ∃ reply st',
    get_response stub_clock echo_remote "s1" "brainstorming outline revision" one_session
    = (Ok reply, st') ∧
    ∀ sid' s, session_info one_session sid' = Some s →
      ∃ s', session_info st' sid' = Some s' ∧
            topic s' = topic s ∧ current_stage s' = current_stage s.
Proof.
  destruct (respond_keeps_topic_and_stage stub_clock echo_remote one_session "s1"
              "brainstorming outline revision" wf_one_session)
    as (outcome & st' & Hrun & Hok & Hkeep).
  destruct (Hok echo_remote_completes) as [reply ->]. by exists reply, st'.
Defined.

(** ** The key invariant *)

(** C10: in a new store, and after [create_session], [respond] (with or
    without auto-creation, whatever the outcome of the call) and
    [reset_session] on a store where it holds, every stored session's
    [session_id] is the key it is stored under; [respond] returns text
    whenever the awaited call completes. *)
Theorem session_id_is_key
    (clock : nat → datetime) (remote : nat → request → result ChatCompletion) :
  key_inv init_state ∧
  ∀ st sid, wf st → key_inv st →
    (wf (snd (create_session sid st)) ∧ key_inv (snd (create_session sid st))) ∧
    (wf (snd (reset_session sid st)) ∧ key_inv (snd (reset_session sid st))) ∧
    ∀ text, ∃ outcome st',
      get_response clock remote sid text st = (outcome, st') ∧
      (always_completes remote → ∃ reply, outcome = Ok reply) ∧
      wf st' ∧ key_inv st'.
Proof.
  split; [apply key_inv_init|].
  intros st sid Hwf Hk.
  split; [split; [by apply wf_create_session|by apply key_inv_create_session]|].
  split; [split; [by apply wf_reset_session|by apply key_inv_reset_session]|].
  intros text.
  destruct (get_response_spec clock remote st sid text Hwf)
    as (old & st' & l & s & _ & Hrun & Hwf' & _ & _ & _ & Hk' & _).
  cbv zeta in Hrun. eexists _, st'. split; [exact Hrun|].
  split; [intros Hc; apply outcome_of_completes, Hc|].
  split; [done|by apply Hk'].
Qed.

Lemma session_id_is_key_witness :
  key_inv (snd (create_session "s2" one_session)) ∧
  key_inv (snd (reset_session "s1" one_session)) ∧
  ∃ reply st',
    get_response stub_clock echo_remote "s3" "hi" one_session = (Ok reply, st') ∧
    key_inv st'.
Proof.
  assert (Hwf : wf one_session) by apply wf_one_session.
  assert (Hk : key_inv one_session) by apply key_inv_create_session, key_inv_init.
  split; [|split].
  - apply (proj2 (session_id_is_key stub_clock echo_remote) one_session "s2" Hwf Hk).
  - apply (proj2 (session_id_is_key stub_clock echo_remote) one_session "s1" Hwf Hk).
  - destruct (proj2 (proj2 (proj2 (session_id_is_key stub_clock echo_remote)
                _ "s3" Hwf Hk)) "hi") as (outcome & st' & Hrun & Hok & _ & Hk').
    destruct (Hok echo_remote_completes) as [reply ->]. by exists reply, st'.
Defined.

(** ** Reading *)

Lemma history_subseteq (st st' : state) (sid : string) :
  wf st → heap st ⊆ heap st' → sessions st' = sessions st →
  history st' sid = history st sid.
Proof.
  intros Hwf Hsub Hs. destruct (sessions st !! sid) as [l|] eqn:Hsid.
  - destruct (Hwf _ _ Hsid) as (s & vals & Hh).
    rewrite (history_known st sid l s vals Hsid Hh).
    apply history_known with l s; [by rewrite Hs|by eapply holds_subseteq].
  - rewrite (history_unknown st sid Hsid). apply history_unknown. by rewrite Hs.
Qed.

Lemma session_info_subseteq (st st' : state) (sid : string) :
  wf st → heap st ⊆ heap st' → sessions st' = sessions st →
  session_info st' sid = session_info st sid.
Proof.
  intros Hwf Hsub Hs. destruct (sessions st !! sid) as [l|] eqn:Hsid.
  - destruct (Hwf _ _ Hsid) as (s & vals & Hl & _).
    rewrite (session_info_known st sid l s Hsid Hl).
    apply session_info_known with l; [by rewrite Hs|].
    exact (lookup_weaken _ _ _ _ Hl Hsub).
  - unfold session_info, get_session_info, sessions_get. by rewrite Hs, Hsid.
Qed.

Lemma get_session_history_alloc (st : state) (sid : string) :
  wf st →
  ∃ items,
    get_session_history sid st
    = (Ok (fresh (dom (heap st))),
       mkState (<[fresh (dom (heap st)) := OList items]> (heap st))
         (sessions st) (ticks st) (sent st)).
Proof.
  intros Hwf. destruct (sessions st !! sid) as [l|] eqn:Hsid.
  - destruct (Hwf _ _ Hsid) as (s & vals & Hl & items & Hi & _).
    exists items. by apply get_session_history_known with l s.
  - exists []. by apply get_session_history_unknown.
Qed.

Lemma fresh_insert_subseteq (h : gmap loc object) (o : object) :
  h ⊆ <[fresh (dom h) := o]> h.
Proof. apply insert_subseteq, fresh_heap_None. Qed.

Lemma wf_get_session_history (st : state) (sid : string) :
  wf st → wf (snd (get_session_history sid st)).
Proof.
  intros Hwf. destruct (get_session_history_alloc st sid Hwf) as [items Hrun].
  rewrite Hrun. cbn [snd].
  apply (wf_subseteq st); [done|apply fresh_insert_subseteq|done].
Qed.

Lemma key_inv_get_session_history (st : state) (sid : string) :
  wf st → key_inv st → key_inv (snd (get_session_history sid st)).
Proof.
  intros Hwf Hk. destruct (get_session_history_alloc st sid Hwf) as [items Hrun].
  rewrite Hrun. cbn [snd]. intros sid' l Hsid'. cbn [sessions] in Hsid'.
  destruct (Hk _ _ Hsid') as (s & Hl & Hid). exists s.
  split; [|done]. exact (lookup_weaken _ _ _ _ Hl (fresh_insert_subseteq _ _)).
Qed.

Lemma stored_messages_known (st : state) (sid : string) (l : loc) s vals :
  sessions st !! sid = Some l → holds (heap st) l s vals →
  stored_messages st sid = Some vals.
Proof.
  intros Hsid [Hl (items & Hi & Hm)]. unfold stored_messages. rewrite Hsid, Hl.
  by apply read_messages_ok with items.
Qed.

Lemma stored_messages_unknown (st : state) (sid : string) :
  sessions st !! sid = None → stored_messages st sid = Some [].
Proof. intros Hsid. unfold stored_messages. by rewrite Hsid. Qed.

(** On a well-formed state, what [get_session_history] returns for an id
    holds the messages stored for it. *)
Lemma history_stored (st : state) (sid : string) :
  wf st → history st sid = stored_messages st sid.
Proof.
  intros Hwf. destruct (sessions st !! sid) as [l|] eqn:Hsid.
  - destruct (Hwf _ _ Hsid) as (s & vals & Hh).
    by rewrite (history_known st sid l s vals Hsid Hh),
         (stored_messages_known st sid l s vals Hsid Hh).
  - by rewrite (history_unknown st sid Hsid), (stored_messages_unknown st sid Hsid).
Qed.

Lemma stored_messages_subseteq (st st' : state) (sid : string) :
  wf st → heap st ⊆ heap st' → sessions st' = sessions st →
  stored_messages st' sid = stored_messages st sid.
Proof.
  intros Hwf Hsub Hs. destruct (sessions st !! sid) as [l|] eqn:Hsid.
  - destruct (Hwf _ _ Hsid) as (s & vals & Hh).
    rewrite (stored_messages_known st sid l s vals Hsid Hh).
    apply stored_messages_known with l s; [by rewrite Hs|by eapply holds_subseteq].
  - rewrite (stored_messages_unknown st sid Hsid). apply stored_messages_unknown.
    by rewrite Hs.
Qed.

(** ** Reachable states *)

Lemma wf_setattr_topic (st : state) (l : loc) (v : pyval) :
  wf st → wf (snd (setattr_topic l v st)).
Proof.
  intros Hwf. unfold setattr_topic. rewrite mbind_eq. unfold load_session.
  destruct (heap st !! l) as [[m|items|s]|] eqn:Hl; try done.
  cbn [store snd]. intros sid' l' Hsid'. cbn [sessions] in Hsid'. cbn [heap].
  destruct (Hwf _ _ Hsid') as (s' & vals & Hl' & items & Hi & Hm).
  assert (Hkeep : ∀ k o, heap st !! k = Some o → (∀ s0, o ≠ OEssaySession s0) →
    <[l := OEssaySession (mkEssaySession (session_id s) v (messages s) (current_stage s))]>
      (heap st) !! k = Some o).
  { intros k o Hk Ho. rewrite lookup_insert_ne; [done|].
    intros <-. rewrite Hl in Hk. injection Hk as <-. by eapply Ho. }
  assert (Hm' : msgs_at
    (<[l := OEssaySession (mkEssaySession (session_id s) v (messages s) (current_stage s))]>
       (heap st)) items vals).
  { apply msgs_at_insert; [done|]. intros m. by rewrite Hl. }
  destruct (decide (l' = l)) as [->|Hne].
  - rewrite Hl in Hl'. injection Hl' as <-.
    eexists _, vals. split; [by rewrite lookup_insert_eq|].
    exists items. split; [|done]. cbn [messages]. by apply Hkeep.
  - exists s', vals. split; [by rewrite lookup_insert_ne|].
    exists items. split; [|done]. by apply Hkeep.
Qed.

Lemma key_inv_setattr_topic (st : state) (l : loc) (v : pyval) :
  key_inv st → key_inv (snd (setattr_topic l v st)).
Proof.
  intros Hk. unfold setattr_topic. rewrite mbind_eq. unfold load_session.
  destruct (heap st !! l) as [[m|items|s]|] eqn:Hl; try done.
  cbn [store snd]. intros sid' l' Hsid'. cbn [sessions] in Hsid'. cbn [heap].
  destruct (Hk _ _ Hsid') as (s' & Hl' & Hid).
  destruct (decide (l' = l)) as [->|Hne].
  - rewrite Hl in Hl'. injection Hl' as <-.
    eexists. split; [by rewrite lookup_insert_eq|done].
  - exists s'. split; [by rewrite lookup_insert_ne|done].
Qed.

Section Reachable.

Variable clock : nat → datetime.
Variable remote : nat → request → result ChatCompletion.

Lemma wf_get_response (st : state) (sid text : string) :
  wf st → wf (snd (get_response clock remote sid text st)).
Proof.
  intros Hwf.
  destruct (get_response_spec clock remote st sid text Hwf)
    as (old & st' & l & s & _ & Hrun & Hwf' & _).
  cbv zeta in Hrun. by rewrite Hrun.
Qed.

Lemma key_inv_get_response (st : state) (sid text : string) :
  wf st → key_inv st → key_inv (snd (get_response clock remote sid text st)).
Proof.
  intros Hwf Hk.
  destruct (get_response_spec clock remote st sid text Hwf)
    as (old & st' & l & s & _ & Hrun & _ & _ & _ & _ & Hk' & _).
  cbv zeta in Hrun. rewrite Hrun. by apply Hk'.
Qed.

(** Every state the tutor can reach is well formed and satisfies the key
    invariant. *)
Lemma reachable_wf (st : state) :
  reachable clock remote st → wf st ∧ key_inv st.
Proof.
  induction 1 as [|st sid _ [IHw IHk]|st sid text _ [IHw IHk]|st sid _ [IHw IHk]
                  |st sid _ [IHw IHk]|st l v _ [IHw IHk]].
  - split; [apply wf_init|apply key_inv_init].
  - split; [by apply wf_create_session|by apply key_inv_create_session].
  - split; [by apply wf_get_response|by apply key_inv_get_response].
  - split; [by apply wf_reset_session|by apply key_inv_reset_session].
  - split; [by apply wf_get_session_history|by apply key_inv_get_session_history].
  - split; [by apply wf_setattr_topic|by apply key_inv_setattr_topic].
Qed.

End Reachable.

(** ** Sessions do not share message lists *)

Lemma create_session_fresh (st : state) (sid : string) :
  ∃ l lm,
    create_session sid st
    = (Ok l,
       mkState (<[l := OEssaySession (mkEssaySession sid PyNone lm "topic_selection")]>
                  (<[lm := OList []]> (heap st)))
         (<[sid := l]> (sessions st)) (ticks st) (sent st)) ∧
    heap st !! lm = None ∧ heap st !! l = None ∧ l ≠ lm.
Proof.
  set (lm := fresh (dom (heap st))).
  set (l := fresh (dom (<[lm := OList []]> (heap st)))).
  assert (Hl : <[lm := OList []]> (heap st) !! l = None) by apply fresh_heap_None.
  assert (Hne : l ≠ lm) by (intros E; rewrite E, lookup_insert_eq in Hl; done).
  exists l, lm. split; [reflexivity|]. split; [apply fresh_heap_None|].
  split; [by rewrite lookup_insert_ne in Hl|done].
Qed.

Lemma reset_session_present (st : state) (sid : string) :
  is_Some (sessions st !! sid) →
  reset_session sid st = (Ok true, snd (create_session sid st)).
Proof.
  intros Hsid. unfold reset_session.
  rewrite mbind_eq, sessions_contains_eq, bool_decide_true by done. reflexivity.
Qed.

Lemma msgs_loc_is_list (st : state) (sid : string) (k : loc) :
  wf st → msgs_loc st sid = Some k → ∃ items, heap st !! k = Some (OList items).
Proof.
  intros Hwf. unfold msgs_loc.
  destruct (sessions st !! sid) as [l|] eqn:Hsid; [|done].
  destruct (Hwf _ _ Hsid) as (s & vals & Hl & items & Hi & _).
  rewrite Hl. intros [= <-]. by exists items.
Qed.

Lemma msgs_loc_holds (st : state) (sid : string) (l : loc) s vals :
  sessions st !! sid = Some l → holds (heap st) l s vals →
  msgs_loc st sid = Some (messages s).
Proof. intros Hsid [Hl _]. unfold msgs_loc. by rewrite Hsid, Hl. Qed.

Lemma msgs_loc_create_session (st : state) (sid : string) :
  wf st →
  ∃ lm, heap st !! lm = None ∧
    ∀ sid', msgs_loc (snd (create_session sid st)) sid'
            = if decide (sid' = sid) then Some lm else msgs_loc st sid'.
Proof.
  intros Hwf. destruct (create_session_fresh st sid) as (l & lm & Hrun & Hlm & Hl & Hne).
  exists lm. split; [done|]. intros sid'. rewrite Hrun. unfold msgs_loc. cbn.
  case_decide as Hd.
  - subst. by rewrite !lookup_insert_eq.
  - rewrite lookup_insert_ne by done.
    destruct (sessions st !! sid') as [l'|] eqn:Hsid'; [|done].
    destruct (Hwf _ _ Hsid') as (s' & vals & Hl' & _).
    rewrite !lookup_insert_ne by congruence. done.
Qed.

Lemma sep_create_session (st : state) (sid : string) :
  wf st → sep st → sep (snd (create_session sid st)).
Proof.
  intros Hwf Hsep. destruct (msgs_loc_create_session st sid Hwf) as (lm & Hlm & Hloc).
  intros sid1 sid2 k. rewrite !Hloc.
  assert (Hnew : ∀ sid', msgs_loc st sid' ≠ Some lm).
  { intros sid' H. destruct (msgs_loc_is_list _ _ _ Hwf H) as [items Hi]. congruence. }
  destruct (decide (sid1 = sid)) as [->|H1], (decide (sid2 = sid)) as [->|H2]; try done.
  - intros [= <-] Hk. by destruct (Hnew sid2).
  - intros Hk [= <-]. by destruct (Hnew sid1).
  - apply Hsep.
Qed.

Lemma sep_reset_session (st : state) (sid : string) :
  wf st → sep st → sep (snd (reset_session sid st)).
Proof.
  intros Hwf Hsep. destruct (sessions st !! sid) as [l|] eqn:Hsid.
  - rewrite reset_session_present by eauto. by apply sep_create_session.
  - by rewrite reset_session_unknown.
Qed.

(** When the session mapping is the same and every session object keeps its
    message list, the lists of all ids are the same. *)
Lemma msgs_loc_preserved (st st' : state) (sid : string) :
  wf st → sessions st' = sessions st →
  (∀ k s0, heap st !! k = Some (OEssaySession s0) →
     ∃ s1, heap st' !! k = Some (OEssaySession s1) ∧ messages s1 = messages s0) →
  msgs_loc st' sid = msgs_loc st sid.
Proof.
  intros Hwf Hs Hkeep. unfold msgs_loc. rewrite Hs.
  destruct (sessions st !! sid) as [l|] eqn:Hsid; [|done].
  destruct (Hwf _ _ Hsid) as (s & vals & Hl & _).
  destruct (Hkeep _ _ Hl) as (s1 & Hl1 & Hm). by rewrite Hl, Hl1, Hm.
Qed.

Lemma sep_preserved (st st' : state) :
  wf st → sep st → sessions st' = sessions st →
  (∀ k s0, heap st !! k = Some (OEssaySession s0) →
     ∃ s1, heap st' !! k = Some (OEssaySession s1) ∧ messages s1 = messages s0) →
  sep st'.
Proof.
  intros Hwf Hsep Hs Hkeep sid1 sid2 k.
  rewrite !(msgs_loc_preserved st st') by done. apply Hsep.
Qed.

Lemma sep_get_session_history (st : state) (sid : string) :
  wf st → sep st → sep (snd (get_session_history sid st)).
Proof.
  intros Hwf Hsep. destruct (get_session_history_alloc st sid Hwf) as [items Hrun].
  rewrite Hrun. cbn [snd]. apply (sep_preserved st); [done|done|done|].
  intros k s0 Hk. exists s0. split; [|done].
  exact (lookup_weaken _ _ _ _ Hk (fresh_insert_subseteq _ _)).
Qed.

Lemma setattr_topic_eq (st : state) (l : loc) (v : pyval) :
  setattr_topic l v st
  = match heap st !! l with
    | Some (OEssaySession s) =>
        (Ok (),
         mkState (<[l := OEssaySession
                           (mkEssaySession (session_id s) v (messages s) (current_stage s))]>
                    (heap st))
           (sessions st) (ticks st) (sent st))
    | _ => (Raise (AttributeError "not an EssaySession"), st)
    end.
Proof.
  unfold setattr_topic. rewrite mbind_eq. unfold load_session.
  by destruct (heap st !! l) as [[| |]|].
Qed.

Lemma sep_setattr_topic (st : state) (l : loc) (v : pyval) :
  wf st → sep st → sep (snd (setattr_topic l v st)).
Proof.
  intros Hwf Hsep. rewrite setattr_topic_eq.
  destruct (heap st !! l) as [[m|items|s]|] eqn:Hl; try done.
  cbn [snd]. apply (sep_preserved st); [done|done|done|]. cbn [heap].
  intros k s0 Hk. destruct (decide (k = l)) as [->|Hne].
  - rewrite Hl in Hk. injection Hk as <-. eexists. by rewrite lookup_insert_eq.
  - exists s0. by rewrite lookup_insert_ne.
Qed.

(** ** What an operation on one id leaves of the other ids *)

Lemma holds_frame (h h' : gmap loc object) (l k : loc) s vals items :
  holds h l s vals → frame h h' k → h !! k = Some (OList items) →
  messages s ≠ k → holds h' l s vals.
Proof.
  intros [Hl (items' & Hi & Hm)] Hf Hk Hne. split.
  - apply (Hf _ _ Hl). intros E. rewrite E in Hl. congruence.
  - exists items'. split; [exact (Hf _ _ Hi Hne)|].
    eapply msgs_at_frame; [exact Hm|exact Hf|]. intros v. by rewrite Hk.
Qed.

Lemma observe_other (st st' : state) (sid' : string) :
  wf st → sessions st' !! sid' = sessions st !! sid' →
  (∀ l s vals, sessions st !! sid' = Some l → holds (heap st) l s vals →
     holds (heap st') l s vals) →
  history st' sid' = history st sid' ∧ session_info st' sid' = session_info st sid'.
Proof.
  intros Hwf Hs Hkeep. destruct (sessions st !! sid') as [l|] eqn:Hsid.
  - destruct (Hwf _ _ Hsid) as (s & vals & Hh).
    pose proof (Hkeep _ _ _ eq_refl Hh) as Hh'.
    rewrite (history_known st sid' l s vals Hsid Hh).
    rewrite (history_known st' sid' l s vals Hs Hh').
    rewrite (session_info_known st sid' l s Hsid (proj1 Hh)).
    by rewrite (session_info_known st' sid' l s Hs (proj1 Hh')).
  - rewrite (history_unknown st sid' Hsid), (history_unknown st' sid' Hs).
    unfold session_info, get_session_info, sessions_get. by rewrite Hs, Hsid.
Qed.

Lemma create_session_other (st : state) (sid sid' : string) :
  wf st → sid' ≠ sid →
  history (snd (create_session sid st)) sid' = history st sid' ∧
  session_info (snd (create_session sid st)) sid' = session_info st sid'.
Proof.
  intros Hwf Hne.
  destruct (create_session_spec st sid) as (st' & l & lm & Hrun & _ & _ & Hsub & Hs & _).
  rewrite Hrun. cbn [snd]. apply observe_other; [done|by rewrite Hs, lookup_insert_ne|].
  intros l' s vals _ Hh. by eapply holds_subseteq.
Qed.

Section Others.

Variable clock : nat → datetime.
Variable remote : nat → request → result ChatCompletion.

Lemma get_response_known_keeps (st : state) (sid text : string) (l : loc) :
  wf st → sessions st !! sid = Some l →
  sessions (snd (get_response clock remote sid text st)) = sessions st ∧
  ∀ k s0, heap st !! k = Some (OEssaySession s0) →
    heap (snd (get_response clock remote sid text st)) !! k = Some (OEssaySession s0).
Proof.
  intros Hwf Hsid. destruct (Hwf _ _ Hsid) as (s & vals & Hh).
  destruct (get_response_known clock remote st sid text l s vals Hsid Hh)
    as (st' & Hrun & _ & Hf & Hs & _).
  rewrite Hrun. cbn [snd]. split; [done|].
  intros k s0 Hk. apply (Hf _ _ Hk).
  destruct Hh as [_ (items & Hi & _)]. intros E. rewrite E in Hk. congruence.
Qed.

Lemma get_response_other_known (st : state) (sid sid' text : string) (l : loc) :
  wf st → sep st → sessions st !! sid = Some l → sid' ≠ sid →
  history (snd (get_response clock remote sid text st)) sid' = history st sid' ∧
  session_info (snd (get_response clock remote sid text st)) sid' = session_info st sid'.
Proof.
  intros Hwf Hsep Hsid Hne. destruct (Hwf _ _ Hsid) as (s & vals & Hh).
  destruct (get_response_known clock remote st sid text l s vals Hsid Hh)
    as (st' & Hrun & _ & Hf & Hs & _).
  rewrite Hrun. cbn [snd]. apply observe_other; [done|by rewrite Hs|].
  intros l' s' vals' Hsid' Hh'.
  pose proof Hh as [_ (items & Hi & _)].
  eapply holds_frame; [exact Hh'|exact Hf|exact Hi|].
  intros E. apply Hne, (Hsep sid' sid (messages s)).
  - rewrite <- E. by eapply msgs_loc_holds.
  - by eapply msgs_loc_holds.
Qed.

(** The turn on an unknown id, as the turn on the state with the session
    created. *)
Lemma get_response_via_create (st : state) (sid text : string) :
  sessions st !! sid = None →
  get_response clock remote sid text st
  = get_response clock remote sid text (snd (create_session sid st)) ∧
  is_Some (sessions (snd (create_session sid st)) !! sid).
Proof.
  intros Hsid.
  destruct (create_session_spec st sid) as (st0 & l & lm & Hrun & _ & _ & _ & Hs & _).
  assert (Hl : sessions st0 !! sid = Some l) by (by rewrite Hs, lookup_insert_eq).
  rewrite (get_response_unknown clock remote st st0 sid text l Hsid Hrun Hl).
  rewrite Hrun. cbn [snd]. eauto.
Qed.

Lemma get_response_other (st : state) (sid sid' text : string) :
  wf st → sep st → sid' ≠ sid →
  history (snd (get_response clock remote sid text st)) sid' = history st sid' ∧
  session_info (snd (get_response clock remote sid text st)) sid' = session_info st sid'.
Proof.
  intros Hwf Hsep Hne. destruct (sessions st !! sid) as [l|] eqn:Hsid.
  - by eapply get_response_other_known.
  - destruct (get_response_via_create st sid text Hsid) as [-> [l Hl]].
    destruct (create_session_other st sid sid' Hwf Hne) as [<- <-].
    eapply get_response_other_known; [|by apply sep_create_session|exact Hl|done].
    by apply wf_create_session.
Qed.

Lemma sep_get_response (st : state) (sid text : string) :
  wf st → sep st → sep (snd (get_response clock remote sid text st)).
Proof.
  intros Hwf Hsep.
  assert (Hknown : ∀ st0 l, wf st0 → sep st0 → sessions st0 !! sid = Some l →
    sep (snd (get_response clock remote sid text st0))).
  { intros st0 l Hwf0 Hsep0 Hl.
    destruct (get_response_known_keeps st0 sid text l Hwf0 Hl) as [Hs Hkeep].
    apply (sep_preserved st0); [done|done|done|].
    intros k s0 Hk. exists s0. split; [by apply Hkeep|done]. }
  destruct (sessions st !! sid) as [l|] eqn:Hsid.
  - by eapply Hknown.
  - destruct (get_response_via_create st sid text Hsid) as [-> [l Hl]].
    eapply Hknown; [|by apply sep_create_session|exact Hl].
    by apply wf_create_session.
Qed.

(** In every reachable state the sessions have message lists of their
    own. *)
Lemma reachable_sep (st : state) : reachable clock remote st → wf st ∧ sep st.
Proof.
  induction 1 as [|st sid _ [IHw IHs]|st sid text _ [IHw IHs]|st sid _ [IHw IHs]
                  |st sid _ [IHw IHs]|st l v _ [IHw IHs]].
  - split; [apply wf_init|]. intros sid1 sid2 k H. by cbn in H.
  - split; [by apply wf_create_session|by apply sep_create_session].
  - split; [by apply wf_get_response|by apply sep_get_response].
  - split; [by apply wf_reset_session|by apply sep_reset_session].
  - split; [by apply wf_get_session_history|by apply sep_get_session_history].
  - split; [by apply wf_setattr_topic|by apply sep_setattr_topic].
Qed.

End Others.

(** ** Logs are made of turns *)

Lemma turn_messages_outcome (clock : nat → datetime) (n : nat) (text : string)
    (outcome : result pyval) :
  turn_messages clock (n, text, reply_part outcome)
  = mkMessage "user" (PyStr text) (clock n) :: replies_of outcome (clock (S n)).
Proof. by destruct outcome. Qed.

Lemma turn_messages_length (clock : nat → datetime) (t : turn) :
  length (turn_messages clock t) = length (turn_messages (λ _, 0%Z) t).
Proof. destruct t as [[n text] [reply|]]; done. Qed.

Lemma spaced_weaken (turns : list turn) (lo hi hi' : nat) :
  spaced lo turns hi → hi ≤ hi' → spaced lo turns hi'.
Proof.
  revert lo. induction turns as [|t rest IH]; intros lo; cbn [spaced].
  - lia.
  - intros [Hlo Hrest] Hhi. split; [done|]. by apply IH.
Qed.

Lemma spaced_snoc (turns : list turn) (lo : nat) (t : turn) :
  spaced lo turns t.1.1 →
  spaced lo (turns ++ [t]) (t.1.1 + length (turn_messages (λ _, 0%Z) t)).
Proof.
  revert lo. induction turns as [|t' rest IH]; intros lo; cbn [spaced app].
  - intros Hlo. split; [done|lia].
  - intros [Hlo Hrest]. split; [done|]. by apply IH.
Qed.

Lemma spaced_le (turns : list turn) (lo hi : nat) : spaced lo turns hi → lo ≤ hi.
Proof.
  revert lo. induction turns as [|t rest IH]; intros lo; cbn [spaced]; [done|].
  intros [Hlo Hrest]. apply IH in Hrest. lia.
Qed.

Lemma log_of_snoc (clock : nat → datetime) (turns : list turn) (t : turn) :
  log_of clock (turns ++ [t]) = log_of clock turns ++ turn_messages clock t.
Proof. unfold log_of. rewrite bind_app. cbn. by rewrite app_nil_r. Qed.

Lemma log_of_cons (clock : nat → datetime) (turns : list turn) (t : turn) :
  log_of clock (t :: turns) = turn_messages clock t ++ log_of clock turns.
Proof. done. Qed.

Lemma log_of_length (clock : nat → datetime) (turns : list turn) :
  Forall whole turns → length (log_of clock turns) = 2 * length turns.
Proof.
  induction 1 as [|t rest [reply Ht] _ IH]; [done|].
  rewrite log_of_cons, length_app, IH. destruct t as [[n text] r]. cbn in Ht.
  subst r. cbn. lia.
Qed.

Lemma holds_setattr_topic (st : state) (l l' : loc) (v : pyval) s s' vals :
  heap st !! l = Some (OEssaySession s) →
  holds (heap st) l' s' vals →
  ∃ s'',
    holds (<[l := OEssaySession
                   (mkEssaySession (session_id s) v (messages s) (current_stage s))]>
             (heap st)) l' s'' vals ∧
    session_id s'' = session_id s' ∧ current_stage s'' = current_stage s'.
Proof.
  intros Hl [Hl' (items & Hi & Hm)].
  assert (Hi' : ∀ k, heap st !! k = Some (OList items) →
    <[l := OEssaySession (mkEssaySession (session_id s) v (messages s) (current_stage s))]>
      (heap st) !! k = Some (OList items)).
  { intros k Hk. rewrite lookup_insert_ne; [done|]. intros <-. congruence. }
  assert (Hm' : msgs_at
    (<[l := OEssaySession (mkEssaySession (session_id s) v (messages s) (current_stage s))]>
       (heap st)) items vals).
  { apply msgs_at_insert; [done|]. intros m. by rewrite Hl. }
  destruct (decide (l' = l)) as [->|Hne].
  - rewrite Hl in Hl'. injection Hl' as <-.
    exists (mkEssaySession (session_id s) v (messages s) (current_stage s)).
    split; [|done]. split; [by rewrite lookup_insert_eq|].
    exists items. split; [by apply Hi'|done].
  - exists s'. split; [|done]. split; [by rewrite lookup_insert_ne|].
    exists items. split; [by apply Hi'|done].
Qed.

Lemma history_setattr_topic (st : state) (l : loc) (v : pyval) (sid : string) :
  wf st → history (snd (setattr_topic l v st)) sid = history st sid.
Proof.
  intros Hwf. rewrite setattr_topic_eq.
  destruct (heap st !! l) as [[m|items|s]|] eqn:Hl; try done. cbn [snd].
  destruct (sessions st !! sid) as [l'|] eqn:Hsid.
  - destruct (Hwf _ _ Hsid) as (s' & vals & Hh).
    destruct (holds_setattr_topic st l l' v s s' vals Hl Hh) as (s'' & Hh' & _).
    rewrite (history_known st sid l' s' vals Hsid Hh).
    by apply history_known with l' s''.
  - rewrite (history_unknown st sid Hsid). by apply history_unknown.
Qed.

Lemma history_create_session (st : state) (sid : string) :
  history (snd (create_session sid st)) sid = Some [].
Proof.
  destruct (create_session_spec st sid) as (st' & l & lm & Hrun & _ & Hh & _ & Hs & _).
  rewrite Hrun. cbn [snd]. eapply history_known; [|exact Hh].
  by rewrite Hs, lookup_insert_eq.
Qed.

Lemma ticks_create_session (st : state) (sid : string) :
  ticks (snd (create_session sid st)) = ticks st ∧
  sent (snd (create_session sid st)) = sent st.
Proof. done. Qed.

Section Logs.

Variable clock : nat → datetime.
Variable remote : nat → request → result ChatCompletion.
Variable Q : turn → Prop.
Hypothesis HQ : ∀ n text k req, Q (n, text, reply_part (outcome_of (remote k req))).

Lemma turn_log_create_session (st : state) (sid sid' : string) :
  wf st → turn_log Q clock st sid' → turn_log Q clock (snd (create_session sid st)) sid'.
Proof.
  intros Hwf (turns & Hhist & Hsp & HF). destruct (decide (sid' = sid)) as [->|Hne].
  - exists []. split; [apply history_create_session|]. split; [cbn; lia|constructor].
  - exists turns. destruct (create_session_other st sid sid' Hwf Hne) as [-> _].
    done.
Qed.

Lemma turn_log_get_response (st : state) (sid sid' text : string) :
  wf st → sep st → turn_log Q clock st sid' →
  turn_log Q clock (snd (get_response clock remote sid text st)) sid'.
Proof.
  intros Hwf Hsep (turns & Hhist & Hsp & HF).
  destruct (get_response_history clock remote st sid text Hwf)
    as (old & st' & Hold & Hrun & _ & Hhist' & Ht & _).
  cbv zeta in Hrun, Hhist', Ht.
  destruct (decide (sid' = sid)) as [->|Hne].
  - rewrite Hold in Hhist. injection Hhist as ->.
    exists (turns ++ [(ticks st, text,
      reply_part (outcome_of (remote (length (sent st))
        (request_for (log_of clock turns
                      ++ [mkMessage "user" (PyStr text) (clock (ticks st))])))))]).
    rewrite Hrun. cbn [snd].
    split; [by rewrite log_of_snoc, turn_messages_outcome|].
    split; [|apply Forall_app; split; [done|constructor; [apply HQ|constructor]]].
    rewrite Ht.
    pose proof (spaced_snoc turns 0 (ticks st, text,
      reply_part (outcome_of (remote (length (sent st))
        (request_for (log_of clock turns
                      ++ [mkMessage "user" (PyStr text) (clock (ticks st))])))))
      Hsp) as H.
    rewrite <- (turn_messages_length clock), turn_messages_outcome in H.
    cbn [length] in H. rewrite Nat.add_succ_r in H. exact H.
  - exists turns. destruct (get_response_other clock remote st sid sid' text Hwf Hsep Hne)
      as [-> _].
    split; [done|]. split; [|done]. rewrite Hrun. cbn [snd]. rewrite Ht.
    eapply spaced_weaken; [done|lia].
Qed.

(** In every reachable state the log of every id is made of turns. *)
Lemma reachable_turn_log (st : state) (sid : string) :
  reachable clock remote st → turn_log Q clock st sid.
Proof.
  intros Hr. revert sid.
  induction Hr as [|st sid0 Hr IH|st sid0 text Hr IH|st sid0 Hr IH
                   |st sid0 Hr IH|st l v Hr IH]; intros sid;
    try (destruct (reachable_sep clock remote st Hr) as [Hwf Hsep]).
  - exists []. split; [by apply history_unknown|]. split; [cbn; lia|constructor].
  - by apply turn_log_create_session.
  - by apply turn_log_get_response.
  - destruct (sessions st !! sid0) as [l|] eqn:Hsid.
    + rewrite reset_session_present by eauto. by apply turn_log_create_session.
    + by rewrite reset_session_unknown.
  - destruct (IH sid) as (turns & Hhist & Hsp & HF). exists turns.
    destruct (get_session_history_alloc st sid0 Hwf) as [items Hrun].
    rewrite Hrun. cbn [snd]. split; [|done].
    rewrite <- Hhist. apply history_subseteq; [done|apply fresh_insert_subseteq|done].
  - destruct (IH sid) as (turns & Hhist & Hsp & HF). exists turns.
    rewrite history_setattr_topic by done. split; [done|]. split; [|done].
    rewrite setattr_topic_eq. by destruct (heap st !! l) as [[| |]|].
Qed.

End Logs.

(** When no awaited call is interrupted, every turn comes to a reply. *)
Lemma whole_completes (remote : nat → request → result ChatCompletion) :
  always_completes remote →
  ∀ (n : nat) (text : string) k req, whole (n, text, reply_part (outcome_of (remote k req))).
Proof.
  intros Hc n text k req. destruct (outcome_of_completes _ (Hc k req)) as [reply ->].
  by eexists.
Qed.

Lemma log_of_roles (clock : nat → datetime) (turns : list turn) :
  Forall (λ m, role m = "user" ∨ role m = "assistant") (log_of clock turns).
Proof.
  induction turns as [|[[n text] [reply|]] rest IH]; [constructor| |].
  - rewrite log_of_cons. cbn. constructor; [by left|]. constructor; [by right|done].
  - rewrite log_of_cons. cbn. constructor; [by left|done].
Qed.

Lemma log_of_role (clock : nat → datetime) (turns : list turn) (i : nat) (m : Message) :
  Forall whole turns →
  log_of clock turns !! i = Some m →
  role m = (if Nat.even i then "user" else "assistant") ∧
  (Nat.even i = true → ∃ text, content m = PyStr text).
Proof.
  intros HF. revert i. induction HF as [|[[n text] r] rest [reply Ht] _ IH]; intros i; [done|].
  cbn in Ht. subst r. destruct i as [|[|i]]; cbn.
  - intros [= <-]. split; [done|]. by eexists.
  - intros [= <-]. done.
  - apply IH.
Qed.

Lemma log_of_timestamps (clock : nat → datetime) (turns : list turn) (lo hi : nat) :
  (∀ m n, m ≤ n → (clock m ≤ clock n)%Z) →
  spaced lo turns hi →
  StronglySorted Z.le (timestamp <$> log_of clock turns) ∧
  Forall (Z.le (clock lo)) (timestamp <$> log_of clock turns).
Proof.
  intros Hmono. revert lo. induction turns as [|[[n text] r] rest IH]; intros lo.
  - intros _. split; constructor.
  - cbn [spaced]. intros [Hlo Hrest]. cbn in Hlo. destruct (IH _ Hrest) as [Hsorted Hall].
    rewrite log_of_cons.
    assert (H0 : Forall (Z.le (clock n)) (timestamp <$> log_of clock rest)).
    { eapply Forall_impl; [exact Hall|]. intros z Hz. cbn beta in *.
      etrans; [|exact Hz]. apply Hmono. cbn. lia. }
    destruct r as [reply|]; cbn in *.
    + assert (H1 : Forall (Z.le (clock (S n))) (timestamp <$> log_of clock rest)).
      { eapply Forall_impl; [exact Hall|]. intros z Hz. cbn beta in *.
        etrans; [|exact Hz]. apply Hmono. lia. }
      split.
      * constructor; [constructor; done|]. constructor; [apply Hmono; lia|done].
      * constructor; [by apply Hmono|]. constructor; [apply Hmono; lia|].
        eapply Forall_impl; [exact H0|]. intros z Hz. cbn beta in *.
        etrans; [|exact Hz]. by apply Hmono.
    + split.
      * constructor; done.
      * constructor; [by apply Hmono|].
        eapply Forall_impl; [exact H0|]. intros z Hz. cbn beta in *.
        etrans; [|exact Hz]. by apply Hmono.
Qed.

Lemma slice_from_snoc {A} (l : list A) (x : A) :
  slice_from (-10) (l ++ [x]) = slice_from (-9) l ++ [x].
Proof.
  unfold slice_from. rewrite length_app. cbn [length Z.ltb Z.compare].
  rewrite <- drop_app_le by lia. f_equal. lia.
Qed.

Lemma slice_from_9_length {A} (l : list A) : length (slice_from (-9) l) ≤ 9.
Proof. unfold slice_from. rewrite length_drop. cbn. lia. Qed.

Lemma request_for_ok (clock : nat → datetime) (turns : list turn) (text : string) (t : datetime) :
  request_ok (request_for (log_of clock turns ++ [mkMessage "user" (PyStr text) t])).
Proof.
  split; [done|]. split; [done|]. split; [done|].
  exists (to_chat_message <$> slice_from (-9) (log_of clock turns)), text.
  split; [|split].
  - unfold request_for. cbn [req_messages]. by rewrite slice_from_snoc, fmap_app.
  - rewrite length_fmap. apply slice_from_9_length.
  - apply Forall_fmap. unfold slice_from. apply Forall_drop.
    eapply Forall_impl; [apply log_of_roles|]. done.
Qed.

(** ** Reachable stub states *)

Lemma reachable_one_session (clock : nat → datetime)
    (remote : nat → request → result ChatCompletion) :
  reachable clock remote one_session.
Proof. apply reach_create, reach_init. Qed.

Lemma reachable_respond_all (clock : nat → datetime)
    (remote : nat → request → result ChatCompletion)
    (sid : string) (texts : list string) (st : state) :
  reachable clock remote st →
  reachable clock remote (snd (respond_all clock remote sid texts st)).
Proof.
  revert st. induction texts as [|text texts IH]; intros st Hr; [done|].
  pose proof (reach_respond _ _ st sid text Hr) as Hr1.
  unfold respond_all in *. cbn [mapM]. rewrite mbind_eq.
  destruct (get_response clock remote sid text st) as [[reply|e|b] st1];
    cbn [snd] in Hr1; [|done|done].
  rewrite mbind_eq. specialize (IH st1 Hr1).
  by destruct (mapM (get_response clock remote sid) texts st1) as [[replies|e|b] st2].
Qed.

Lemma reachable_five_turns : reachable stub_clock echo_remote five_turns.
Proof. apply reachable_respond_all, reach_init. Qed.

(** ** What a turn adds, and what it sends *)




(** C3: the request [respond] sends is the system instruction followed by
    the last min(M, 10) messages of the log as it stands once the user
    message is appended (M its length), in order, each entry made of the
    role and the content of its message; the request is the one the
    service answers, and the stored history keeps the whole log. *)
Theorem outbound_request_window
    (clock : nat → datetime) (remote : nat → request → result ChatCompletion)
    (st : state) (sid text : string) :
  wf st →
  ∃ old outcome st' req rest,
    history st sid = Some old ∧
    get_response clock remote sid text st = (outcome, st') ∧
    let log := old ++ [mkMessage "user" (PyStr text) (clock (ticks st))] in
    let window := last_n (min (length log) 10) log in
    sent st' = sent st ++ [req] ∧
    outcome = outcome_of (remote (length (sent st)) req) ∧
    req_messages req
    = mkChatMessage "system" (PyStr system_prompt)
      :: ((λ m, mkChatMessage (role m) (content m)) <$> window) ∧
    length window = min (length log) 10 ∧
    log = take (length log - min (length log) 10) log ++ window ∧
    history st' sid = Some (log ++ rest).
Proof.
  intros Hwf.
  destruct (get_response_history clock remote st sid text Hwf)
    as (old & st' & Hold & Hrun & _ & Hhist & _ & Hsent).
  cbv zeta in Hrun, Hhist, Hsent.
  eexists old, _, st', _, _.
  split; [exact Hold|]. split; [exact Hrun|]. cbv zeta.
  split; [exact Hsent|]. split; [reflexivity|].
  split; [unfold request_for; cbn [req_messages]; by rewrite slice_from_last_n|].
  split; [apply last_n_length; lia|].
  split; [apply last_n_suffix|].
  rewrite <- (assoc_L (++)). exact Hhist.
Qed.

Lemma outbound_request_window_witness :
  ∃ old outcome st' req rest,
    history five_turns "s1" = Some old ∧
    get_response stub_clock echo_remote "s1" "six" five_turns = (outcome, st') ∧
    let log := old ++ [mkMessage "user" (PyStr "six") (stub_clock (ticks five_turns))] in
    let window := last_n (min (length log) 10) log in
    sent st' = sent five_turns ++ [req] ∧
    outcome = outcome_of (echo_remote (length (sent five_turns)) req) ∧
    req_messages req
    = mkChatMessage "system" (PyStr system_prompt)
      :: ((λ m, mkChatMessage (role m) (content m)) <$> window) ∧
    length window = min (length log) 10 ∧
    log = take (length log - min (length log) 10) log ++ window ∧
    history st' "s1" = Some (log ++ rest).
Proof.
  apply (outbound_request_window stub_clock echo_remote five_turns "s1" "six").
  apply (reachable_wf stub_clock echo_remote), reachable_five_turns.
Defined.

(** The request of the sixth turn: eleven stored messages, the last ten of
    them in the request after the system instruction, starting with the
    reply to the first. *)
Example sixth_request_window :
  (λ r, (length (req_messages r), take 3 (req_messages r)))
    <$> last (sent (snd (get_response stub_clock echo_remote "s1" "six" five_turns)))
  = Some (11, [mkChatMessage "system" (PyStr system_prompt);
               mkChatMessage "assistant" (PyStr "OK:one");
               mkChatMessage "user" (PyStr "two")]).
Proof. vm_compute. reflexivity. Qed.

(** ** Creating over an existing session *)

(** X1: [create_session] never fails and does not check for an existing
    session: whatever was stored under the id, a new object is stored and
    returned, with an empty history, no topic and the initial stage. *)
Theorem create_session_overwrites (st : state) (sid : string) :
  ∃ l st' s,
    create_session sid st = (Ok l, st') ∧
    heap st !! l = None ∧
    sessions st' !! sid = Some l ∧
    history st' sid = Some [] ∧
    session_info st' sid = Some s ∧
    session_id s = sid ∧ topic s = PyNone ∧ current_stage s = "topic_selection".
Proof.
  destruct (create_session_spec st sid) as (st' & l & lm & Hrun & Hl & Hh & _ & Hs & _).
  assert (Hsid : sessions st' !! sid = Some l) by (by rewrite Hs, lookup_insert_eq).
  eexists l, st', _. split; [done|]. split; [done|]. split; [done|].
  split; [by eapply history_known|].
  split; [eapply session_info_known; [exact Hsid|apply Hh]|done].
Qed.

(** ** Sessions are independent *)

(** X2: a call of [respond] on one id leaves the history and the session
    record of every other id as they were. *)
Theorem respond_leaves_other_sessions
    (clock : nat → datetime) (remote : nat → request → result ChatCompletion)
    (st : state) (sid sid' text : string) :
  reachable clock remote st → sid' ≠ sid →
  history (snd (get_response clock remote sid text st)) sid' = history st sid' ∧
  session_info (snd (get_response clock remote sid text st)) sid' = session_info st sid'.
Proof.
  intros Hr Hne. destruct (reachable_sep clock remote st Hr) as [Hwf Hsep].
  by apply get_response_other.
Qed.

Lemma respond_leaves_other_sessions_witness :
  history (snd (get_response stub_clock echo_remote "s2" "hi" five_turns)) "s1"
  = history five_turns "s1" ∧
  session_info (snd (get_response stub_clock echo_remote "s2" "hi" five_turns)) "s1"
  = session_info five_turns "s1".
Proof.
  apply (respond_leaves_other_sessions stub_clock echo_remote five_turns "s2" "s1" "hi").
  - apply reachable_five_turns.
  - discriminate.
Defined.

(** X3: [create_session] and [reset_session] on one id leave the history
    and the session record of every other id as they were. *)
Theorem create_reset_leave_other_sessions
    (clock : nat → datetime) (remote : nat → request → result ChatCompletion)
    (st : state) (sid sid' : string) :
  reachable clock remote st → sid' ≠ sid →
  (history (snd (create_session sid st)) sid' = history st sid' ∧
   session_info (snd (create_session sid st)) sid' = session_info st sid') ∧
  (history (snd (reset_session sid st)) sid' = history st sid' ∧
   session_info (snd (reset_session sid st)) sid' = session_info st sid').
Proof.
  intros Hr Hne. destruct (reachable_wf clock remote st Hr) as [Hwf _].
  split; [by apply create_session_other|].
  destruct (sessions st !! sid) as [l|] eqn:Hsid.
  - rewrite reset_session_present by eauto. by apply create_session_other.
  - by rewrite reset_session_unknown.
Qed.

Lemma create_reset_leave_other_sessions_witness :
  (history (snd (create_session "s2" five_turns)) "s1" = history five_turns "s1" ∧
   session_info (snd (create_session "s2" five_turns)) "s1" = session_info five_turns "s1") ∧
  (history (snd (reset_session "s2" five_turns)) "s1" = history five_turns "s1" ∧
   session_info (snd (reset_session "s2" five_turns)) "s1" = session_info five_turns "s1").
Proof.
  apply (create_reset_leave_other_sessions stub_clock echo_remote five_turns "s2" "s1").
  - apply reachable_five_turns.
  - discriminate.
Defined.

(** ** The shape of every log *)

(** X4: when no awaited call of the service is interrupted (none lets an
    exception through that is not an [Exception]), in every reachable state
    the history of every id has an even number of messages, user and
    assistant in turn starting with the user's, and every user message
    carries a string.  An interrupted call leaves a user message without a
    reply. *)
Theorem reachable_logs_alternate
    (clock : nat → datetime) (remote : nat → request → result ChatCompletion)
    (st : state) (sid : string) :
  always_completes remote →
  reachable clock remote st →
  ∃ hist,
    history st sid = Some hist ∧
    Nat.Even (length hist) ∧
    ∀ i m, hist !! i = Some m →
      role m = (if Nat.even i then "user" else "assistant") ∧
      (Nat.even i = true → ∃ text, content m = PyStr text).
Proof.
  intros Hc Hr.
  destruct (reachable_turn_log clock remote whole (whole_completes remote Hc) st sid Hr)
    as (turns & Hhist & _ & Hwhole).
  exists (log_of clock turns). split; [done|]. split.
  - exists (length turns). by apply log_of_length.
  - intros i m. by apply log_of_role.
Qed.

Lemma reachable_logs_alternate_witness :
  ∃ hist,
    history five_turns "s1" = Some hist ∧
    Nat.Even (length hist) ∧
    ∀ i m, hist !! i = Some m →
      role m = (if Nat.even i then "user" else "assistant") ∧
      (Nat.even i = true → ∃ text, content m = PyStr text).
Proof.
  apply (reachable_logs_alternate stub_clock echo_remote five_turns "s1").
  - apply echo_remote_completes.
  - apply reachable_five_turns.
Defined.

(** X5: when the clock never goes back, the timestamps of every history
    are in non-decreasing order. *)
Theorem timestamps_nondecreasing
    (clock : nat → datetime) (remote : nat → request → result ChatCompletion)
    (st : state) (sid : string) (hist : list Message) :
  (∀ m n, m ≤ n → (clock m ≤ clock n)%Z) →
  reachable clock remote st →
  history st sid = Some hist →
  StronglySorted Z.le (timestamp <$> hist).
Proof.
  intros Hmono Hr Hhist.
  destruct (reachable_turn_log clock remote (λ _, True) (λ _ _ _ _, I) st sid Hr)
    as (turns & Hhist' & Hsp & _).
  rewrite Hhist in Hhist'. injection Hhist' as ->.
  by destruct (log_of_timestamps clock turns 0 (ticks st) Hmono Hsp).
Qed.

Lemma timestamps_nondecreasing_witness :
  StronglySorted Z.le (timestamp <$> default [] (history five_turns "s1")).
Proof.
  apply (timestamps_nondecreasing stub_clock echo_remote five_turns "s1").
  - intros m n Hmn. unfold stub_clock. lia.
  - apply reachable_five_turns.
  - vm_compute. reflexivity.
Defined.

(** ** The shape of every request *)

(** X6: every request a tutor has sent has the fixed model, output limit
    and temperature, starts with the system instruction, ends with the
    user's current message and has at most nine messages in between, all of
    them user or assistant messages. *)
Theorem reachable_requests_ok
    (clock : nat → datetime) (remote : nat → request → result ChatCompletion)
    (st : state) :
  reachable clock remote st → Forall request_ok (sent st).
Proof.
  induction 1 as [|st sid Hr IH|st sid text Hr IH|st sid Hr IH|st sid Hr IH|st l v Hr IH].
  - constructor.
  - done.
  - destruct (reachable_wf clock remote st Hr) as [Hwf _].
    destruct (get_response_history clock remote st sid text Hwf)
      as (old & st' & Hold & Hrun & _ & _ & _ & Hsent).
    cbv zeta in Hrun, Hsent. rewrite Hrun. cbn [snd]. rewrite Hsent.
    apply Forall_app. split; [done|]. constructor; [|constructor].
    destruct (reachable_turn_log clock remote (λ _, True) (λ _ _ _ _, I) st sid Hr)
      as (turns & Hhist & _).
    rewrite Hold in Hhist. injection Hhist as ->. apply request_for_ok.
  - destruct (sessions st !! sid) as [l|] eqn:Hsid.
    + by rewrite reset_session_present by eauto.
    + by rewrite reset_session_unknown.
  - destruct (reachable_wf clock remote st Hr) as [Hwf _].
    destruct (get_session_history_alloc st sid Hwf) as [items Hrun]. by rewrite Hrun.
  - rewrite setattr_topic_eq. by destruct (heap st !! l) as [[| |]|].
Qed.

Lemma reachable_requests_ok_witness : Forall request_ok (sent five_turns).
Proof.
  apply (reachable_requests_ok stub_clock echo_remote five_turns).
  apply reachable_five_turns.
Defined.

(** X7: when no awaited call of the service is interrupted, once a session
    holds ten messages or more, the request of the next turn has eleven
    messages and the one after the system instruction is an assistant
    message: the window starts in the middle of a turn. *)
Theorem window_starts_with_a_reply
    (clock : nat → datetime) (remote : nat → request → result ChatCompletion)
    (st : state) (sid text : string) (old : list Message) :
  always_completes remote →
  reachable clock remote st →
  history st sid = Some old →
  10 ≤ length old →
  ∃ req m,
    sent (snd (get_response clock remote sid text st)) = sent st ++ [req] ∧
    length (req_messages req) = 11 ∧
    req_messages req !! 1 = Some m ∧
    cm_role m = "assistant".
Proof.
  intros Hc Hr Hold Hlen. destruct (reachable_wf clock remote st Hr) as [Hwf _].
  destruct (get_response_history clock remote st sid text Hwf)
    as (old' & st' & Hold' & Hrun & _ & _ & _ & Hsent).
  rewrite Hold in Hold'. injection Hold' as <-.
  cbv zeta in Hrun, Hsent. rewrite Hrun. cbn [snd].
  destruct (reachable_turn_log clock remote whole (whole_completes remote Hc) st sid Hr)
    as (turns & Hhist & _ & Hwhole).
  rewrite Hold in Hhist. injection Hhist as ->.
  pose proof (log_of_length clock turns Hwhole) as Hl.
  assert (Hi : is_Some (log_of clock turns !! (length (log_of clock turns) - 9))).
  { apply lookup_lt_is_Some. lia. }
  destruct Hi as [m Hm].
  eexists _, (to_chat_message m). split; [exact Hsent|].
  unfold request_for. cbn [req_messages]. rewrite slice_from_snoc.
  assert (Hs : slice_from (-9) (log_of clock turns)
               = drop (length (log_of clock turns) - 9) (log_of clock turns)).
  { unfold slice_from. f_equal. cbn. lia. }
  rewrite Hs. split; [|split].
  - cbn [length]. rewrite length_fmap, length_app, length_drop. cbn. lia.
  - rewrite lookup_cons. cbv iota beta. rewrite list_lookup_fmap, lookup_app_l.
    + by rewrite lookup_drop, Nat.add_0_r, Hm.
    + rewrite length_drop. lia.
  - destruct (log_of_role clock turns _ m Hwhole Hm) as [Hrole _].
    cbn. rewrite Hrole.
    destruct (Nat.even (length (log_of clock turns) - 9)) eqn:E; [|done].
    apply Nat.even_spec in E. destruct E as [k Hk]. lia.
Qed.

Lemma window_starts_with_a_reply_witness :
  ∃ req m,
    sent (snd (get_response stub_clock echo_remote "s1" "six" five_turns))
    = sent five_turns ++ [req] ∧
    length (req_messages req) = 11 ∧
    req_messages req !! 1 = Some m ∧
    cm_role m = "assistant".
Proof.
  eapply (window_starts_with_a_reply stub_clock echo_remote five_turns "s1" "six").
  - apply echo_remote_completes.
  - apply reachable_five_turns.
  - vm_compute. reflexivity.
  - cbn. lia.
Defined.

(** ** Session objects across reset and respond *)

(** X8: [reset_session] on an existing id stores a new object and leaves
    the old one alone: a caller who kept the old session object still finds
    its messages there, and assigning to its topic no longer shows in what
    the tutor reports for the id. *)
Theorem reset_session_replaces_object
    (clock : nat → datetime) (remote : nat → request → result ChatCompletion)
    (st : state) (sid : string) (l0 : loc) :
  reachable clock remote st →
  sessions st !! sid = Some l0 →
  ∃ l st' s0 vals,
    reset_session sid st = (Ok true, st') ∧
    sessions st' !! sid = Some l ∧ l ≠ l0 ∧
    holds (heap st) l0 s0 vals ∧ holds (heap st') l0 s0 vals ∧
    ∀ v, session_info (snd (setattr_topic l0 v st')) sid = session_info st' sid ∧
         history (snd (setattr_topic l0 v st')) sid = history st' sid.
Proof.
  intros Hr Hsid. destruct (reachable_wf clock remote st Hr) as [Hwf _].
  destruct (Hwf _ _ Hsid) as (s0 & vals & Hh0).
  destruct (reset_session_known st sid) as (st' & l & lm & Hrun & Hl & Hh & Hsub & Hs & _);
    [by eauto|].
  assert (Hne : l ≠ l0) by (intros ->; destruct Hh0 as [Hl0 _]; congruence).
  assert (Hsid' : sessions st' !! sid = Some l) by (by rewrite Hs, lookup_insert_eq).
  assert (Hwf' : wf st') by (by eapply wf_insert_session).
  pose proof (holds_subseteq _ _ _ _ _ Hh0 Hsub) as Hh0'.
  exists l, st', s0, vals. split; [done|]. split; [done|]. split; [done|].
  split; [done|]. split; [done|].
  intros v. split; [|by apply history_setattr_topic].
  rewrite setattr_topic_eq. rewrite (proj1 Hh0'). cbn [snd].
  rewrite (session_info_known st' sid l _ Hsid' (proj1 Hh)).
  apply session_info_known with l; [done|]. cbn [heap].
  rewrite lookup_insert_ne by done. apply Hh.
Qed.

Lemma reset_session_replaces_object_witness :
  ∃ l st' s0 vals,
    reset_session "s1" five_turns = (Ok true, st') ∧
    sessions st' !! "s1" = Some l ∧ l ≠ 2%positive ∧
    holds (heap five_turns) 2%positive s0 vals ∧ holds (heap st') 2%positive s0 vals ∧
    ∀ v, session_info (snd (setattr_topic 2%positive v st')) "s1" = session_info st' "s1" ∧
         history (snd (setattr_topic 2%positive v st')) "s1" = history st' "s1".
Proof.
  apply (reset_session_replaces_object stub_clock echo_remote five_turns "s1" 2%positive).
  - apply reachable_five_turns.
  - vm_compute. reflexivity.
Defined.

(** X9: [respond] on an existing id works in place: the id keeps the same
    session object and the same list object, so a reference obtained
    before the call sees what the call added: the user's message and, for a
    call that returns, the reply after it and nothing else. *)
Theorem respond_keeps_session_object
    (clock : nat → datetime) (remote : nat → request → result ChatCompletion)
    (st : state) (sid text : string) (l : loc) :
  reachable clock remote st →
  sessions st !! sid = Some l →
  sessions (snd (get_response clock remote sid text st)) = sessions st ∧
  msgs_loc (snd (get_response clock remote sid text st)) sid = msgs_loc st sid ∧
  ∃ s old u tail,
    holds (heap st) l s old ∧
    holds (heap (snd (get_response clock remote sid text st))) l s (old ++ u :: tail) ∧
    role u = "user" ∧ content u = PyStr text ∧
    (∀ reply, fst (get_response clock remote sid text st) = Ok reply →
       ∃ a, tail = [a] ∧ role a = "assistant" ∧ content a = reply) ∧
    (∀ b, fst (get_response clock remote sid text st) = RaiseBase b → tail = []).
Proof.
  intros Hr Hsid. destruct (reachable_wf clock remote st Hr) as [Hwf _].
  destruct (Hwf _ _ Hsid) as (s & vals & Hh).
  destruct (get_response_known_keeps clock remote st sid text l Hwf Hsid) as [Hs Hkeep].
  split; [done|]. split.
  - apply msgs_loc_preserved; [done|done|].
    intros k s0 Hk. exists s0. split; [by apply Hkeep|done].
  - destruct (get_response_known clock remote st sid text l s vals Hsid Hh)
      as (st' & Hrun & Hh' & _).
    cbv zeta in Hrun, Hh'. rewrite Hrun. cbn [fst snd].
    eexists s, vals, _, _. split; [done|]. split; [exact Hh'|].
    split; [done|]. split; [done|]. split.
    + intros reply ->. by eexists.
    + by intros b ->.
Qed.

Lemma respond_keeps_session_object_witness :
  sessions (snd (get_response stub_clock echo_remote "s1" "six" five_turns))
  = sessions five_turns ∧
  msgs_loc (snd (get_response stub_clock echo_remote "s1" "six" five_turns)) "s1"
  = msgs_loc five_turns "s1" ∧
  ∃ s old u tail,
    holds (heap five_turns) 2%positive s old ∧
    holds (heap (snd (get_response stub_clock echo_remote "s1" "six" five_turns)))
      2%positive s (old ++ u :: tail) ∧
    role u = "user" ∧ content u = PyStr "six" ∧
    (∀ reply, fst (get_response stub_clock echo_remote "s1" "six" five_turns) = Ok reply →
       ∃ a, tail = [a] ∧ role a = "assistant" ∧ content a = reply) ∧
    (∀ b, fst (get_response stub_clock echo_remote "s1" "six" five_turns) = RaiseBase b →
       tail = []).
Proof.
  apply (respond_keeps_session_object stub_clock echo_remote five_turns "s1" "six" 2%positive).
  - apply reachable_five_turns.
  - vm_compute. reflexivity.
Defined.

(** ** The credential *)

(** X10: which credential the constructor uses, and when it fails.  A
    non-empty argument is the key and the environment is not looked at; with
    no argument, or an empty one, a non-empty [OPENAI_API_KEY] is the key;
    with neither, the constructor raises its [ValueError] without
    constructing the client.  With a key, the client is constructed with it
    and the constructor succeeds exactly when that does, keeping the key and
    an empty store; what the client's constructor raises goes through. *)
Theorem init_fails_iff_no_credential (AsyncOpenAI : pyval → result unit)
    (api_key : pyval) (environ : gmap string string) :
  (∀ a k,
     api_key = PyStr (String a k) →
     EssayTutor_init AsyncOpenAI api_key environ
     = match AsyncOpenAI (PyStr (String a k)) with
       | Ok _ => Ok (PyStr (String a k), init_state)
       | Raise e => Raise e
       | RaiseBase b => RaiseBase b
       end) ∧
  (∀ a k,
     api_key = PyNone ∨ api_key = PyStr "" →
     environ !! "OPENAI_API_KEY" = Some (String a k) →
     EssayTutor_init AsyncOpenAI api_key environ
     = match AsyncOpenAI (PyStr (String a k)) with
       | Ok _ => Ok (PyStr (String a k), init_state)
       | Raise e => Raise e
       | RaiseBase b => RaiseBase b
       end) ∧
  (api_key = PyNone ∨ api_key = PyStr "" →
   environ !! "OPENAI_API_KEY" = None ∨ environ !! "OPENAI_API_KEY" = Some "" →
   EssayTutor_init AsyncOpenAI api_key environ
   = Raise (ValueError "OpenAI API key is required. Set OPENAI_API_KEY environment variable or pass it to the constructor.")) ∧
  ((∀ key, AsyncOpenAI key = Ok tt) →
   ((∃ e, EssayTutor_init AsyncOpenAI api_key environ = Raise e) ↔
    (api_key = PyNone ∨ api_key = PyStr "") ∧
    (environ !! "OPENAI_API_KEY" = None ∨ environ !! "OPENAI_API_KEY" = Some ""))).
Proof.
  split; [|split; [|split]].
  - intros a k ->. done.
  - intros a k [->| ->] Henv; unfold EssayTutor_init, os_getenv; by rewrite Henv.
  - intros [->| ->] [Henv|Henv]; unfold EssayTutor_init, os_getenv; by rewrite Henv.
  - intros Hc. unfold EssayTutor_init, py_or, os_getenv.
    destruct api_key as [|[|a k]]; cbn;
      destruct (environ !! "OPENAI_API_KEY") as [[|b k']|]; cbn;
      rewrite ?Hc; split.
    all: try (intros [e He]; discriminate He).
    all: try (intros [[Ha|Ha] [He|He]]; discriminate).
    all: try (intros _; split; eauto; fail).
    all: try (intros _; eexists; reflexivity).
Qed.

Lemma init_fails_iff_no_credential_witness :
  EssayTutor_init stub_AsyncOpenAI (PyStr "sk-arg") {["OPENAI_API_KEY" := "sk-env"]}
  = Ok (PyStr "sk-arg", init_state) ∧
  EssayTutor_init stub_AsyncOpenAI (PyStr "") {["OPENAI_API_KEY" := "sk-env"]}
  = Ok (PyStr "sk-env", init_state) ∧
  EssayTutor_init stub_AsyncOpenAI (PyStr "") {["OPENAI_API_KEY" := ""]}
  = Raise (ValueError "OpenAI API key is required. Set OPENAI_API_KEY environment variable or pass it to the constructor.").
Proof.
  split; [|split].
  - exact (proj1 (init_fails_iff_no_credential stub_AsyncOpenAI (PyStr "sk-arg")
                    {["OPENAI_API_KEY" := "sk-env"]}) _ _ eq_refl).
  - exact (proj1 (proj2 (init_fails_iff_no_credential stub_AsyncOpenAI (PyStr "")
                           {["OPENAI_API_KEY" := "sk-env"]}))
             _ _ (or_intror eq_refl) eq_refl).
  - exact (proj1 (proj2 (proj2 (init_fails_iff_no_credential stub_AsyncOpenAI (PyStr "")
                                  {["OPENAI_API_KEY" := ""]})))
             (or_intror eq_refl) (or_intror eq_refl)).
Defined.

(** ** What the service answers *)

(** X11: an answer with no choice is treated like a failure of the call:
    [respond] returns and logs the prefixed text for the index error. *)
Theorem respond_on_empty_choices
    (clock : nat → datetime) (remote : nat → request → result ChatCompletion)
    (st : state) (sid text : string) (old : list Message) :
  wf st →
  history st sid = Some old →
  remote (length (sent st))
    (request_for (old ++ [mkMessage "user" (PyStr text) (clock (ticks st))]))
  = Ok (mkChatCompletion []) →
  ∃ st',
    get_response clock remote sid text st
    = (Ok (PyStr "Sorry, I encountered an error: list index out of range"), st') ∧
    history st' sid
    = Some (old ++ [mkMessage "user" (PyStr text) (clock (ticks st));
                    mkMessage "assistant"
                      (PyStr "Sorry, I encountered an error: list index out of range")
                      (clock (S (ticks st)))]).
Proof.
  intros Hwf Hold Hans.
  destruct (get_response_history clock remote st sid text Hwf)
    as (old' & st' & Hold' & Hrun & _ & Hhist & _).
  rewrite Hold in Hold'. injection Hold' as <-.
  cbv zeta in Hrun, Hhist. rewrite Hans in Hrun, Hhist.
  exists st'. by split.
Qed.

Lemma respond_on_empty_choices_witness :
  ∃ st',
    get_response stub_clock empty_remote "s1" "hi" one_session
    = (Ok (PyStr "Sorry, I encountered an error: list index out of range"), st') ∧
    history st' "s1"
    = Some ([] ++ [mkMessage "user" (PyStr "hi") (stub_clock (ticks one_session));
                   mkMessage "assistant"
                     (PyStr "Sorry, I encountered an error: list index out of range")
                     (stub_clock (S (ticks one_session)))]).
Proof.
  apply (respond_on_empty_choices stub_clock empty_remote one_session "s1" "hi" []).
  - apply wf_one_session.
  - vm_compute. reflexivity.
  - reflexivity.
Defined.

(** X12: when the service answers with choices, [respond] returns and logs
    the content of the first one as it is, [None] included, and ignores the
    other choices. *)
Theorem respond_returns_first_choice
    (clock : nat → datetime) (remote : nat → request → result ChatCompletion)
    (st : state) (sid text : string) (old : list Message)
    (choice : Choice) (others : list Choice) :
  wf st →
  history st sid = Some old →
  remote (length (sent st))
    (request_for (old ++ [mkMessage "user" (PyStr text) (clock (ticks st))]))
  = Ok (mkChatCompletion (choice :: others)) →
  ∃ st',
    get_response clock remote sid text st
    = (Ok (message_content (message choice)), st') ∧
    history st' sid
    = Some (old ++ [mkMessage "user" (PyStr text) (clock (ticks st));
                    mkMessage "assistant" (message_content (message choice))
                      (clock (S (ticks st)))]).
Proof.
  intros Hwf Hold Hans.
  destruct (get_response_history clock remote st sid text Hwf)
    as (old' & st' & Hold' & Hrun & _ & Hhist & _).
  rewrite Hold in Hold'. injection Hold' as <-.
  cbv zeta in Hrun, Hhist. rewrite Hans in Hrun, Hhist.
  exists st'. by split.
Qed.

Lemma respond_returns_first_choice_witness :
  ∃ st',
    get_response stub_clock none_remote "s1" "hi" one_session = (Ok PyNone, st') ∧
    history st' "s1"
    = Some ([] ++ [mkMessage "user" (PyStr "hi") (stub_clock (ticks one_session));
                   mkMessage "assistant" PyNone (stub_clock (S (ticks one_session)))]).
Proof.
  apply (respond_returns_first_choice stub_clock none_remote one_session "s1" "hi" []
           (mkChoice (mkChatCompletionMessage PyNone))
           [mkChoice (mkChatCompletionMessage (PyStr "second"))]).
  - apply wf_one_session.
  - vm_compute. reflexivity.
  - reflexivity.
Defined.

(** ** The command line loop *)

Lemma EssayTutor_init_Ok (AsyncOpenAI : pyval → result unit)
    (api_key key : pyval) (environ : gmap string string) (st : state) :
  EssayTutor_init AsyncOpenAI api_key environ = Ok (key, st) → st = init_state.
Proof.
  unfold EssayTutor_init. destruct (negb _); [done|].
  destruct (AsyncOpenAI _); [|done|done]. by intros [= _ <-].
Qed.

Lemma truthy_PyStr (s : string) : truthy (PyStr s) = true ↔ s ≠ "".
Proof. by destruct s. Qed.

Lemma reset_session_cases (st : state) (sid : string) :
  ∃ b, reset_session sid st = (Ok b, snd (reset_session sid st)).
Proof.
  destruct (sessions st !! sid) as [l|] eqn:Hsid.
  - exists true. by rewrite reset_session_present by eauto.
  - exists false. by rewrite reset_session_unknown.
Qed.

Lemma history_reset_session (st : state) (sid : string) :
  history (snd (reset_session sid st)) sid = Some [].
Proof.
  destruct (sessions st !! sid) as [l|] eqn:Hsid.
  - rewrite reset_session_present by eauto. apply history_create_session.
  - rewrite reset_session_unknown by done. by apply history_unknown.
Qed.

(** The list [get_session_history] returns holds the messages [history]
    reads. *)
Lemma get_session_history_read (st : state) (sid : string) (hist : list Message) :
  wf st → history st sid = Some hist →
  ∃ items,
    get_session_history sid st
    = (Ok (fresh (dom (heap st))),
       mkState (<[fresh (dom (heap st)) := OList items]> (heap st))
         (sessions st) (ticks st) (sent st)) ∧
    msgs_at (heap st) items hist.
Proof.
  intros Hwf Hhist. destruct (sessions st !! sid) as [l|] eqn:Hsid.
  - destruct (Hwf _ _ Hsid) as (s & vals & Hh).
    rewrite (history_known st sid l s vals Hsid Hh) in Hhist. injection Hhist as <-.
    destruct Hh as [Hl (items & Hi & Hm)]. exists items.
    split; [by apply get_session_history_known with l s|done].
  - rewrite (history_unknown st sid Hsid) in Hhist. injection Hhist as <-.
    exists []. split; [by apply get_session_history_unknown|constructor].
Qed.

Section CLIProofs.

Variable clock : nat → datetime.
Variable remote : nat → request → result ChatCompletion.
Variable strip lower capitalize : string → string.

Lemma print_messages_ok (items : list loc) (vals : list Message) (c : console) :
  msgs_at (heap (console_tutor c)) items vals →
  print_messages capitalize items c
  = (Ok tt, mkConsole (console_tutor c) (stdout c ++ (history_line capitalize <$> vals))).
Proof.
  intros Hm. revert c vals Hm. induction items as [|l items IH]; intros c vals Hm.
  - inversion Hm; subst. cbn. rewrite app_nil_r. by destruct c.
  - inversion Hm as [|? v ? vals' Hl Hrest]; subst. cbn [print_messages].
    unfold load_message. rewrite Hl.
    rewrite (IH _ vals') by exact Hrest. cbn. by rewrite <- (assoc_L (++)).
Qed.

Lemma cli_command_history (user_input : string) (c : console) (hist : list Message) :
  wf (console_tutor c) →
  lower user_input = "history" →
  history (console_tutor c) cli_session_id = Some hist →
  ∃ st',
    cli_command clock remote lower capitalize user_input c
    = (Ok Continue,
       mkConsole st'
         (stdout c ++ [(nl +:+ "Conversation History:") +:+ nl]
                   ++ (history_line capitalize <$> hist))) ∧
    wf st' ∧ heap (console_tutor c) ⊆ heap st' ∧
    sessions st' = sessions (console_tutor c) ∧
    ticks st' = ticks (console_tutor c) ∧ sent st' = sent (console_tutor c).
Proof.
  intros Hwf Hlow Hhist.
  destruct (get_session_history_read _ _ _ Hwf Hhist) as (items & Hrun & Hm).
  eexists. split.
  - unfold cli_command. rewrite Hlow.
    rewrite decide_False by done. rewrite decide_False by done.
    rewrite decide_True by done. rewrite Hrun. cbn [print console_tutor stdout].
    unfold load_list. cbn [heap]. rewrite lookup_insert_eq.
    rewrite (print_messages_ok items hist).
    + cbn [console_tutor stdout]. by rewrite <- (assoc_L (++)).
    + cbn [console_tutor heap]. apply msgs_at_insert; [done|].
      intros v. by rewrite fresh_heap_None.
  - split; [|split; [apply fresh_insert_subseteq|done]].
    apply (wf_subseteq (console_tutor c)); [done|apply fresh_insert_subseteq|done].
Qed.

Lemma cli_command_chat (user_input : string) (c : console) :
  wf (console_tutor c) →
  user_input ≠ "" →
  lower user_input ≠ "quit" → lower user_input ≠ "reset" →
  lower user_input ≠ "history" →
  ∃ old st',
    history (console_tutor c) cli_session_id = Some old ∧
    let u := mkMessage "user" (PyStr user_input) (clock (ticks (console_tutor c))) in
    let outcome :=
      outcome_of (remote (length (sent (console_tutor c))) (request_for (old ++ [u]))) in
    get_response clock remote cli_session_id user_input (console_tutor c) = (outcome, st') ∧
    cli_command clock remote lower capitalize user_input c
    = match outcome with
      | Ok reply =>
          (Ok Continue, mkConsole st' (stdout c ++ ["Tutor: "; py_str reply +:+ nl]))
      | Raise e => (Raise e, mkConsole st' (stdout c ++ ["Tutor: "]))
      | RaiseBase b => (RaiseBase b, mkConsole st' (stdout c ++ ["Tutor: "]))
      end ∧
    wf st' ∧
    history st' cli_session_id
    = Some (old ++ u :: replies_of outcome (clock (S (ticks (console_tutor c))))).
Proof.
  intros Hwf Hne Hq Hr Hh.
  destruct (get_response_history clock remote _ cli_session_id user_input Hwf)
    as (old & st' & Hold & Hrun & Hwf' & Hhist & _).
  cbv zeta in Hrun, Hhist. exists old, st'. split; [done|]. cbv zeta.
  split; [done|]. split; [|by split].
  unfold cli_command. rewrite !decide_False by done.
  rewrite (proj2 (truthy_PyStr user_input) Hne). cbn [negb write console_tutor stdout].
  rewrite Hrun. destruct (outcome_of _) as [reply|e|b]; [|done|done].
  unfold print. cbn [console_tutor stdout]. by rewrite <- (assoc_L (++)).
Qed.

Lemma cli_inv_same_tutor (c c' : console) :
  console_tutor c' = console_tutor c → cli_inv lower c → cli_inv lower c'.
Proof. unfold cli_inv. by intros ->. Qed.

Lemma cli_command_inv (user_input : string) (c : console) :
  cli_inv lower c → cli_inv lower (snd (cli_command clock remote lower capitalize user_input c)).
Proof.
  intros [Hwf (hist & Hhist & Hall)].
  destruct (decide (lower user_input = "quit")) as [Hq|Hq].
  { unfold cli_command. rewrite decide_True by done. by split; [|exists hist]. }
  destruct (decide (lower user_input = "reset")) as [Hr|Hr].
  { unfold cli_command. rewrite decide_False, decide_True by done.
    destruct (reset_session_cases (console_tutor c) cli_session_id) as [b ->].
    cbn [snd print console_tutor]. split; [by apply wf_reset_session|].
    exists []. split; [apply history_reset_session|constructor]. }
  destruct (decide (lower user_input = "history")) as [Hh|Hh].
  { destruct (cli_command_history user_input c hist Hwf Hh Hhist)
      as (st' & -> & Hwf' & Hsub & Hs & _).
    cbn [snd console_tutor]. split; [done|]. exists hist. split; [|done].
    rewrite <- Hhist. by apply history_subseteq. }
  destruct (decide (user_input = "")) as [He|He].
  { unfold cli_command. rewrite !decide_False by done. subst user_input.
    cbn. by split; [|exists hist]. }
  destruct (cli_command_chat user_input c Hwf He Hq Hr Hh)
    as (old & st' & Hold & _ & Hrun & Hwf' & Hhist').
  cbv zeta in Hrun, Hhist'. rewrite Hrun.
  rewrite Hhist in Hold. injection Hold as <-.
  assert (Hinv : cli_inv lower (mkConsole st' [])).
  { split; [done|]. eexists. split; [exact Hhist'|]. apply Forall_app. split; [done|].
    constructor; [intros _; by exists user_input|].
    destruct (outcome_of _) as [reply|e|b]; cbn; [|constructor|constructor].
    constructor; [discriminate|constructor]. }
  destruct (outcome_of _) as [reply|e|b]; by apply (cli_inv_same_tutor (mkConsole st' [])).
Qed.

Lemma cli_step_inv (ev : stdin_event) (c : console) :
  cli_inv lower c → cli_inv lower (snd (cli_step clock remote strip lower capitalize ev c)).
Proof.
  intros Hinv. destruct ev as [line| |]; cbn [cli_step]; try by apply (cli_inv_same_tutor c).
  pose proof (cli_command_inv (strip line) (write (nl +:+ "You: ") c)
                (cli_inv_same_tutor c _ eq_refl Hinv)) as H.
  destruct (cli_command clock remote lower capitalize (strip line) _) as [[ctl|e|b] c1];
    cbn [snd] in *; [done|by apply (cli_inv_same_tutor c1)|].
  destruct (decide _); by apply (cli_inv_same_tutor c1).
Qed.

Lemma cli_loop_inv (events : list stdin_event) (c : console) :
  cli_inv lower c → cli_inv lower (snd (cli_loop clock remote strip lower capitalize events c)).
Proof.
  revert c. induction events as [|ev events IH]; intros c Hinv; [done|].
  cbn [cli_loop]. pose proof (cli_step_inv ev c Hinv) as H.
  destruct (cli_step clock remote strip lower capitalize ev c) as [[| |b] c'];
    cbn [snd] in *.
  - by apply IH.
  - done.
  - done.
Qed.

End CLIProofs.

Section CLIResults.

Variable clock : nat → datetime.
Variable remote : nat → request → result ChatCompletion.
Variable AsyncOpenAI : pyval → result unit.
Variable strip lower capitalize : string → string.

(** X13: the [history] command prints the header and one line for each
    message of the session's log, in order, as "Role: content"; it sends
    nothing and changes no history. *)
Theorem cli_history_prints_log (line : string) (c : console) (hist : list Message) :
  wf (console_tutor c) →
  lower (strip line) = "history" →
  history (console_tutor c) cli_session_id = Some hist →
  ∃ c',
    cli_step clock remote strip lower capitalize (Line line) c = (Continue, c') ∧
    stdout c'
    = stdout c ++ [nl +:+ "You: "; (nl +:+ "Conversation History:") +:+ nl]
               ++ (history_line capitalize <$> hist) ∧
    sessions (console_tutor c') = sessions (console_tutor c) ∧
    sent (console_tutor c') = sent (console_tutor c) ∧
    ∀ sid, history (console_tutor c') sid = history (console_tutor c) sid.
Proof.
  intros Hwf Hlow Hhist.
  destruct (cli_command_history clock remote lower capitalize (strip line)
              (write (nl +:+ "You: ") c) hist Hwf Hlow Hhist)
    as (st' & Hrun & Hwf' & Hsub & Hs & _ & Hn).
  eexists. cbn [cli_step]. rewrite Hrun. split; [reflexivity|].
  cbn [stdout console_tutor write] in *. split; [by rewrite <- !(assoc_L (++))|].
  split; [done|]. split; [done|]. intros sid. by apply history_subseteq.
Qed.

(** X14: the [reset] command prints its confirmation and leaves the
    session's history empty whether or not there was a session; it sends
    nothing. *)
Theorem cli_reset_clears (line : string) (c : console) :
  lower (strip line) = "reset" →
  ∃ c',
    cli_step clock remote strip lower capitalize (Line line) c = (Continue, c') ∧
    stdout c' = stdout c ++ [nl +:+ "You: "; "Session reset. Let's start fresh!" +:+ nl] ∧
    history (console_tutor c') cli_session_id = Some [] ∧
    sent (console_tutor c') = sent (console_tutor c) ∧
    (sessions (console_tutor c) !! cli_session_id = None →
     console_tutor c' = console_tutor c).
Proof.
  intros Hlow. eexists. cbn [cli_step]. unfold cli_command. rewrite Hlow.
  rewrite decide_False, decide_True by done. cbn [write console_tutor stdout].
  destruct (reset_session_cases (console_tutor c) cli_session_id) as [b ->].
  split; [reflexivity|]. unfold print. cbn [stdout console_tutor].
  split; [by rewrite <- (assoc_L (++))|]. split; [apply history_reset_session|].
  split.
  - destruct (sessions (console_tutor c) !! cli_session_id) as [l|] eqn:Hsid.
    + by rewrite reset_session_present by eauto.
    + by rewrite reset_session_unknown.
  - intros Hsid. by rewrite reset_session_unknown.
Qed.

(** X15: a line that is not empty once stripped and is not a command is
    sent to the tutor stripped, after "Tutor: " is printed.  When the call
    returns, the loop prints the reply and goes on, and the session's
    history has gained the stripped line as the user's message and the
    reply as the assistant's.  When the awaited call is interrupted, nothing
    more is printed for the turn and the history has gained the user's
    message only: a [KeyboardInterrupt] ends the loop with the goodbye
    line, any other such exception leaves [main]. *)
Theorem cli_chat_line (line : string) (c : console) :
  wf (console_tutor c) →
  strip line ≠ "" →
  lower (strip line) ≠ "quit" → lower (strip line) ≠ "reset" →
  lower (strip line) ≠ "history" →
  ∃ old c' t1,
    history (console_tutor c) cli_session_id = Some old ∧
    match remote (length (sent (console_tutor c)))
            (request_for (old ++ [mkMessage "user" (PyStr (strip line)) t1])) with
    | RaiseBase b =>
        cli_step clock remote strip lower capitalize (Line line) c
        = (if decide (base_class b = "KeyboardInterrupt") then Break else Propagate b, c') ∧
        stdout c'
        = stdout c ++ [nl +:+ "You: "; "Tutor: "]
          ++ (if decide (base_class b = "KeyboardInterrupt")
              then [(nl +:+ "Goodbye! Keep practicing your essay writing!") +:+ nl]
              else []) ∧
        history (console_tutor c') cli_session_id
        = Some (old ++ [mkMessage "user" (PyStr (strip line)) t1])
    | _ =>
        ∃ reply t2,
          cli_step clock remote strip lower capitalize (Line line) c = (Continue, c') ∧
          stdout c' = stdout c ++ [nl +:+ "You: "; "Tutor: "; py_str reply +:+ nl] ∧
          history (console_tutor c') cli_session_id
          = Some (old ++ [mkMessage "user" (PyStr (strip line)) t1;
                          mkMessage "assistant" reply t2])
    end.
Proof.
  intros Hwf Hne Hq Hr Hh.
  destruct (cli_command_chat clock remote lower capitalize (strip line)
              (write (nl +:+ "You: ") c) Hwf Hne Hq Hr Hh)
    as (old & st' & Hold & _ & Hrun & _ & Hhist).
  cbv zeta in Hrun, Hhist. cbn [console_tutor write stdout] in Hold, Hrun, Hhist.
  exists old.
  destruct (remote (length (sent (console_tutor c)))
              (request_for (old ++ [mkMessage "user" (PyStr (strip line))
                                      (clock (ticks (console_tutor c)))])))
    as [response|e|b] eqn:Hans.
  - assert (∃ reply, outcome_of (Ok response) = Ok reply) as [reply Hout].
    { cbn. destruct (choices response); eauto. }
    rewrite Hout in Hrun, Hhist. cbn [replies_of] in Hhist.
    eexists (mkConsole st' _), _. split; [exact Hold|]. rewrite Hans.
    eexists _, _. cbn [cli_step]. rewrite Hrun.
    split; [reflexivity|]. cbn [stdout console_tutor].
    split; [by rewrite <- (assoc_L (++))|exact Hhist].
  - cbn [outcome_of replies_of] in Hrun, Hhist.
    eexists (mkConsole st' _), _. split; [exact Hold|]. rewrite Hans.
    eexists _, _. cbn [cli_step]. rewrite Hrun.
    split; [reflexivity|]. cbn [stdout console_tutor].
    split; [by rewrite <- (assoc_L (++))|exact Hhist].
  - cbn [outcome_of replies_of] in Hrun, Hhist.
    destruct (decide (base_class b = "KeyboardInterrupt")) as [Hk|Hk].
    + eexists (mkConsole st' _), _. split; [exact Hold|]. rewrite Hans.
      cbn [cli_step]. rewrite Hrun. destruct (decide _) as [_|?]; [|done].
      split; [reflexivity|]. cbn [stdout console_tutor print].
      split; [by rewrite <- !(assoc_L (++))|exact Hhist].
    + eexists (mkConsole st' _), _. split; [exact Hold|]. rewrite Hans.
      cbn [cli_step]. rewrite Hrun. destruct (decide _) as [?|_]; [done|].
      split; [reflexivity|]. cbn [stdout console_tutor].
      split; [by rewrite app_nil_r, <- !(assoc_L (++))|exact Hhist].
Qed.

(** X16: whatever is typed, no user message that [main] passes to the
    tutor is empty or one of the commands in any spelling [lower] maps to
    them. *)
Theorem cli_user_messages_are_not_commands
    (environ : gmap string string) (events : list stdin_event)
    (out : list string) (ctl : control) (st : state) :
  main clock remote AsyncOpenAI strip lower capitalize environ events = (out, Ok (ctl, st)) →
  ∃ hist,
    history st cli_session_id = Some hist ∧
    Forall (λ m, role m = "user" →
              ∃ s, content m = PyStr s ∧ s ≠ "" ∧
                   lower s ≠ "quit" ∧ lower s ≠ "reset" ∧ lower s ≠ "history") hist.
Proof.
  unfold main. intros Hmain.
  assert (Hstart : cli_inv lower (mkConsole init_state welcome)).
  { split; [apply wf_init|]. exists []. split; [by apply history_unknown|constructor]. }
  pose proof (cli_loop_inv clock remote strip lower capitalize events _ Hstart) as Hinv.
  destruct (EssayTutor_init AsyncOpenAI PyNone environ) as [[key st0]|e|b] eqn:Hinit;
    [|done|done].
  apply EssayTutor_init_Ok in Hinit as ->.
  destruct (cli_loop _ _ _ _ _ _ _) as [ctl' c].
  destruct ctl' as [| |b]; [| |done]; injection Hmain as _ _ <-; apply Hinv.
Qed.

End CLIResults.

Lemma cli_history_prints_log_witness :
  ∃ c',
    cli_step stub_clock echo_remote ascii_strip ascii_lower ascii_capitalize
      (Line " History ") (mkConsole five_turns []) = (Continue, c') ∧
    stdout c'
    = [] ++ [nl +:+ "You: "; (nl +:+ "Conversation History:") +:+ nl]
         ++ (history_line ascii_capitalize <$> default [] (history five_turns cli_session_id)) ∧
    sessions (console_tutor c') = sessions five_turns ∧
    sent (console_tutor c') = sent five_turns ∧
    ∀ sid, history (console_tutor c') sid = history five_turns sid.
Proof.
  apply (cli_history_prints_log stub_clock echo_remote ascii_strip ascii_lower
           ascii_capitalize " History " (mkConsole five_turns [])).
  - apply (reachable_wf stub_clock echo_remote), reachable_five_turns.
  - vm_compute. reflexivity.
  - vm_compute. reflexivity.
Defined.

Lemma cli_reset_clears_witness :
  ∃ c',
    cli_step stub_clock echo_remote ascii_strip ascii_lower ascii_capitalize
      (Line "RESET") (mkConsole init_state []) = (Continue, c') ∧
    stdout c' = [] ++ [nl +:+ "You: "; "Session reset. Let's start fresh!" +:+ nl] ∧
    history (console_tutor c') cli_session_id = Some [] ∧
    sent (console_tutor c') = sent init_state ∧
    (sessions init_state !! cli_session_id = None → console_tutor c' = init_state).
Proof.
  apply (cli_reset_clears stub_clock echo_remote ascii_strip ascii_lower
           ascii_capitalize "RESET" (mkConsole init_state [])).
  vm_compute. reflexivity.
Defined.

Lemma cli_chat_line_witness :
  ∃ old c' t1,
    history init_state cli_session_id = Some old ∧
    match echo_remote (length (sent init_state))
            (request_for (old ++ [mkMessage "user" (PyStr (ascii_strip "  Hello ")) t1])) with
    | RaiseBase b =>
        cli_step stub_clock echo_remote ascii_strip ascii_lower ascii_capitalize
          (Line "  Hello ") (mkConsole init_state [])
        = (if decide (base_class b = "KeyboardInterrupt") then Break else Propagate b, c') ∧
        stdout c'
        = [] ++ [nl +:+ "You: "; "Tutor: "]
          ++ (if decide (base_class b = "KeyboardInterrupt")
              then [(nl +:+ "Goodbye! Keep practicing your essay writing!") +:+ nl]
              else []) ∧
        history (console_tutor c') cli_session_id
        = Some (old ++ [mkMessage "user" (PyStr (ascii_strip "  Hello ")) t1])
    | _ =>
        ∃ reply t2,
          cli_step stub_clock echo_remote ascii_strip ascii_lower ascii_capitalize
            (Line "  Hello ") (mkConsole init_state []) = (Continue, c') ∧
          stdout c' = [] ++ [nl +:+ "You: "; "Tutor: "; py_str reply +:+ nl] ∧
          history (console_tutor c') cli_session_id
          = Some (old ++ [mkMessage "user" (PyStr (ascii_strip "  Hello ")) t1;
                          mkMessage "assistant" reply t2])
    end.
Proof.
  apply (cli_chat_line stub_clock echo_remote ascii_strip ascii_lower
           ascii_capitalize "  Hello " (mkConsole init_state [])).
  - apply wf_init.
  - vm_compute. discriminate.
  - vm_compute. discriminate.
  - vm_compute. discriminate.
  - vm_compute. discriminate.
Defined.

(** A turn of the loop interrupted while the reply is awaited: Ctrl-C ends
    the loop with the goodbye line, a cancellation leaves [main]; either
    way the session keeps the user's message without a reply. *)
Example cli_interrupted_turn :
  let '(ctl1, c1) := cli_step stub_clock interrupted_remote ascii_strip ascii_lower
                       ascii_capitalize (Line " Hello ") (mkConsole init_state []) in
  let '(ctl2, c2) := cli_step stub_clock cancelled_remote ascii_strip ascii_lower
                       ascii_capitalize (Line " Hello ") (mkConsole init_state []) in
  ctl1 = Break ∧
  stdout c1 = [nl +:+ "You: "; "Tutor: ";
               (nl +:+ "Goodbye! Keep practicing your essay writing!") +:+ nl] ∧
  ctl2 = Propagate CancelledError ∧
  stdout c2 = [nl +:+ "You: "; "Tutor: "] ∧
  history (console_tutor c1) cli_session_id = Some [mkMessage "user" (PyStr "Hello") 0] ∧
  history (console_tutor c2) cli_session_id = Some [mkMessage "user" (PyStr "Hello") 0].
Proof. vm_compute. done. Qed.

Lemma cli_user_messages_are_not_commands_witness :
  ∃ hist,
    history
      (console_tutor
         (snd (cli_loop stub_clock echo_remote ascii_strip ascii_lower ascii_capitalize
                 stub_events (mkConsole init_state welcome))))
      cli_session_id = Some hist ∧
    Forall (λ m, role m = "user" →
              ∃ s, content m = PyStr s ∧ s ≠ "" ∧
                   ascii_lower s ≠ "quit" ∧ ascii_lower s ≠ "reset" ∧
                   ascii_lower s ≠ "history") hist.
Proof.
  eapply (cli_user_messages_are_not_commands stub_clock echo_remote stub_AsyncOpenAI
            ascii_strip ascii_lower ascii_capitalize stub_environ stub_events _ Break).
  vm_compute. reflexivity.
Defined.

(** ** The chat page *)


Section PageProofs.

Variable clock : nat → datetime.
Variable remote : nat → request → result ChatCompletion.
Variable AsyncOpenAI : pyval → result unit.
Variable strip : string → string.
Variable environ : gmap string string.
Hypothesis strip_empty : strip "" = "".






End PageProofs.


(** ** The front ends without a credential *)

(** X18: both front ends construct the tutor from the environment alone.
    When [OPENAI_API_KEY] is unset or empty, [main] prints its two lines of
    welcome and ends with the constructor's [ValueError] without reading
    any input, and every run of the page shows the initialisation error
    only and stores nothing. *)
Theorem front_ends_need_credential
    (clock : nat → datetime) (remote : nat → request → result ChatCompletion)
    (AsyncOpenAI : pyval → result unit)
    (strip lower capitalize : string → string) (environ : gmap string string) :
  environ !! "OPENAI_API_KEY" = None ∨ environ !! "OPENAI_API_KEY" = Some "" →
  (∀ events,
     main clock remote AsyncOpenAI strip lower capitalize environ events
     = (welcome,
        Raise (ValueError "OpenAI API key is required. Set OPENAI_API_KEY environment variable or pass it to the constructor."))) ∧
  (∀ w,
     page_script clock remote AsyncOpenAI strip environ w None
     = (None,
        [StError "Error initializing EssayTutor: OpenAI API key is required. Set OPENAI_API_KEY environment variable or pass it to the constructor."])) ∧
  (∀ ws, page_runs clock remote AsyncOpenAI strip environ ws None = None).
Proof.
  intros Henv.
  assert (Hinit : EssayTutor_init AsyncOpenAI PyNone environ
    = Raise (ValueError "OpenAI API key is required. Set OPENAI_API_KEY environment variable or pass it to the constructor.")).
  { unfold EssayTutor_init, os_getenv. by destruct Henv as [-> | ->]. }
  assert (Hpage : ∀ w,
     page_script clock remote AsyncOpenAI strip environ w None
     = (None,
        [StError "Error initializing EssayTutor: OpenAI API key is required. Set OPENAI_API_KEY environment variable or pass it to the constructor."])).
  { intros w. unfold page_script. by rewrite Hinit. }
  split; [|split; [done|]].
  - intros events. unfold main. by rewrite Hinit.
  - intros ws. induction ws as [|w ws IH]; [done|].
    cbn [page_runs]. by rewrite Hpage.
Qed.

Lemma front_ends_need_credential_witness :
  (∀ events,
     main stub_clock echo_remote stub_AsyncOpenAI ascii_strip ascii_lower ascii_capitalize
       (<["OPENAI_API_KEY" := ""]> ∅) events
     = (welcome,
        Raise (ValueError "OpenAI API key is required. Set OPENAI_API_KEY environment variable or pass it to the constructor."))) ∧
  (∀ w,
     page_script stub_clock echo_remote stub_AsyncOpenAI ascii_strip
       (<["OPENAI_API_KEY" := ""]> ∅) w None
     = (None,
        [StError "Error initializing EssayTutor: OpenAI API key is required. Set OPENAI_API_KEY environment variable or pass it to the constructor."])) ∧
  (∀ ws, page_runs stub_clock echo_remote stub_AsyncOpenAI ascii_strip
           (<["OPENAI_API_KEY" := ""]> ∅) ws None
         = None).
Proof.
  apply (front_ends_need_credential stub_clock echo_remote stub_AsyncOpenAI ascii_strip
           ascii_lower ascii_capitalize (<["OPENAI_API_KEY" := ""]> ∅)).
  right. vm_compute. reflexivity.
Defined.

(** ** How the loop ends *)

Section CLIControl.

Variable clock : nat → datetime.
Variable remote : nat → request → result ChatCompletion.
Variable strip lower capitalize : string → string.

Lemma cli_loop_app (before after : list stdin_event) (c : console) :
  cli_loop clock remote strip lower capitalize (before ++ after) c
  = match cli_loop clock remote strip lower capitalize before c with
    | (Break, c') => (Break, c')
    | (Propagate b, c') => (Propagate b, c')
    | (Continue, c') => cli_loop clock remote strip lower capitalize after c'
    end.
Proof.
  revert c. induction before as [|ev before IH]; intros c; [done|].
  cbn [app cli_loop].
  by destruct (cli_step clock remote strip lower capitalize ev c) as [[| |b] c'].
Qed.

(** X19: the end of the input does not end the loop: each time [input]
    reports it, the loop prints the error and goes on to prompt again, and
    the tutor is not touched. *)
Theorem cli_eof_does_not_end_loop (n : nat) (c : console) :
  cli_loop clock remote strip lower capitalize (replicate n Eof) c
  = (Continue,
     mkConsole (console_tutor c)
       (stdout c ++ mjoin (replicate n [nl +:+ "You: ";
                                        "An error occurred: EOF when reading a line" +:+ nl]))).
Proof.
  revert c. induction n as [|n IH]; intros c.
  - cbn. rewrite app_nil_r. by destruct c.
  - cbn [replicate cli_loop cli_step]. rewrite IH. unfold print, write.
    cbn [console_tutor stdout mjoin list_join]. f_equal. f_equal.
    by rewrite <- !(assoc_L (++)).
Qed.

(** X20: the loop ends at the first [quit] line or Ctrl-C: it prints the
    goodbye, reads none of the input that follows and leaves the tutor as
    it was. *)
Theorem cli_quit_ends_loop
    (before after : list stdin_event) (line : string) (c c1 : console) :
  cli_loop clock remote strip lower capitalize before c = (Continue, c1) →
  (lower (strip line) = "quit" →
   cli_loop clock remote strip lower capitalize (before ++ Line line :: after) c
   = (Break,
      mkConsole (console_tutor c1)
        (stdout c1 ++ [nl +:+ "You: ";
                       "Goodbye! Keep practicing your essay writing!" +:+ nl]))) ∧
  cli_loop clock remote strip lower capitalize (before ++ Interrupt :: after) c
  = (Break,
     mkConsole (console_tutor c1)
       (stdout c1 ++ [nl +:+ "You: ";
                      (nl +:+ "Goodbye! Keep practicing your essay writing!") +:+ nl])).
Proof.
  intros Hbefore. split.
  - intros Hq. rewrite cli_loop_app, Hbefore. cbn [cli_loop cli_step].
    unfold cli_command. rewrite Hq, decide_True by done.
    unfold print, write. cbn [console_tutor stdout]. by rewrite <- (assoc_L (++)).
  - rewrite cli_loop_app, Hbefore. cbn [cli_loop cli_step].
    unfold print, write. cbn [console_tutor stdout]. by rewrite <- (assoc_L (++)).
Qed.

End CLIControl.

Lemma cli_quit_ends_loop_witness :
  let c1 := snd (cli_loop stub_clock echo_remote ascii_strip ascii_lower ascii_capitalize
                   [Line "  Hello "] (mkConsole init_state [])) in
  cli_loop stub_clock echo_remote ascii_strip ascii_lower ascii_capitalize
    ([Line "  Hello "] ++ Line " QUIT" :: [Line "never read"]) (mkConsole init_state [])
  = (Break,
     mkConsole (console_tutor c1)
       (stdout c1 ++ [nl +:+ "You: ";
                      "Goodbye! Keep practicing your essay writing!" +:+ nl])).
Proof.
  intros c1.
  apply (proj1 (cli_quit_ends_loop stub_clock echo_remote ascii_strip ascii_lower
                  ascii_capitalize [Line "  Hello "] [Line "never read"] " QUIT"
                  (mkConsole init_state []) c1 ltac:(vm_compute; reflexivity))).
  vm_compute. reflexivity.
Defined.

(** ** The read operations *)

(** C8, as the code has it: the read operations change neither the session
    mapping nor any existing object.  [get_session_info] returns the stored
    session object itself (or [None] for an unknown id).
    [get_session_history] returns a new list object that holds the messages
    stored for the id, in order (the empty sequence for an unknown id), and
    whatever is then done to that list, the messages stored for every id,
    and what [history] and [sessionInfo] report for it, are the same as
    before. *)
Theorem read_operations (st : state) (sid : string) :
  wf st →
  get_session_info sid st = (Ok (sessions st !! sid), st) ∧
  (sessions st !! sid = None → info_absent st sid) ∧
  ∃ r st' vals,
    get_session_history sid st = (Ok r, st') ∧
    sessions st' = sessions st ∧ heap st ⊆ heap st' ∧
    ticks st' = ticks st ∧ sent st' = sent st ∧
    heap st !! r = None ∧
    stored_messages st sid = Some vals ∧
    read_messages (heap st') r = Some vals ∧
    (∀ l s vals', sessions st !! sid = Some l → holds (heap st) l s vals' → vals = vals') ∧
    (sessions st !! sid = None → vals = []) ∧
    ∀ (o : object) (sid' : string),
      stored_messages (snd (store r o st')) sid' = stored_messages st sid' ∧
      history (snd (store r o st')) sid' = history st sid' ∧
      session_info (snd (store r o st')) sid' = session_info st sid'.
Proof.
  intros Hwf. split; [reflexivity|]. split; [by intros ?; apply info_absent_iff|].
  assert (Hr : heap st !! fresh (dom (heap st)) = None) by apply fresh_heap_None.
  assert (∃ vals, stored_messages st sid = Some vals) as [vals Hvals].
  { destruct (sessions st !! sid) as [l|] eqn:Hsid.
    - destruct (Hwf _ _ Hsid) as (s & vals & Hh). exists vals.
      by eapply stored_messages_known.
    - exists []. by apply stored_messages_unknown. }
  assert (Hhist : history st sid = Some vals) by (by rewrite history_stored).
  destruct (get_session_history_alloc st sid Hwf) as [items Hrun].
  eexists _, _, vals. split; [exact Hrun|]. cbn [heap sessions ticks sent].
  split; [done|]. split; [by apply insert_subseteq|].
  split; [done|]. split; [done|]. split; [done|]. split; [done|].
  split; [unfold history in Hhist; by rewrite Hrun in Hhist|].
  split.
  { intros l s vals' Hsid Hh.
    rewrite (stored_messages_known st sid l s vals' Hsid Hh) in Hvals. congruence. }
  split.
  { intros Hsid. rewrite (stored_messages_unknown st sid Hsid) in Hvals. congruence. }
  intros o sid'. cbn [store snd heap sessions].
  rewrite insert_insert_eq.
  split; [apply stored_messages_subseteq|split;
           [apply history_subseteq|apply session_info_subseteq]];
    try done; by apply insert_subseteq.
Qed.

Lemma read_operations_witness :
  get_session_info "s1" five_turns = (Ok (sessions five_turns !! "s1"), five_turns) ∧
  ∃ r st',
    get_session_history "s1" five_turns = (Ok r, st') ∧
    read_messages (heap st') r
    = Some (log_of stub_clock
              [(0, "one", Some (PyStr "OK:one")); (2, "two", Some (PyStr "OK:two"));
               (4, "three", Some (PyStr "OK:three")); (6, "four", Some (PyStr "OK:four"));
               (8, "five", Some (PyStr "OK:five"))]) ∧
    ∀ (o : object) (sid' : string),
      stored_messages (snd (store r o st')) sid' = stored_messages five_turns sid' ∧
      history (snd (store r o st')) sid' = history five_turns sid' ∧
      session_info (snd (store r o st')) sid' = session_info five_turns sid'.
Proof.
  destruct (read_operations five_turns "s1"
              (proj1 (reachable_wf stub_clock echo_remote five_turns reachable_five_turns)))
    as (Hinfo & _ & r & st' & vals & Hrun & _ & _ & _ & _ & _ & Hvals & Hread & _ & _
        & Hframe).
  split; [exact Hinfo|]. exists r, st'. split; [exact Hrun|]. split; [|exact Hframe].
  rewrite Hread, <- Hvals. vm_compute. reflexivity.
Defined.

(** C8 as stated fails for [sessionInfo]: [get_session_info] hands out the
    stored object, not a snapshot, and assigning to the topic of what it
    returned changes what [sessionInfo] reports. *)
Lemma session_info_is_the_stored_object :
  fst (get_session_info "s1" one_session) = Ok (Some 2%positive) ∧
  sessions one_session !! "s1" = Some 2%positive ∧
  session_info (snd (setattr_topic 2 (PyStr "Elephants") one_session)) "s1"
  ≠ session_info one_session "s1".
Proof.
  split; [vm_compute; reflexivity|]. split; [vm_compute; reflexivity|].
  intros H. vm_compute in H. discriminate H.
Qed.

(** The copy is shallow: the list [get_session_history] returns holds the
    very message objects of the stored list. *)
Example history_shares_messages :
  let st := snd (get_response stub_clock echo_remote "s1" "hi" init_state) in
  let '(r, st') := get_session_history "s1" st in
  ∃ l s items,
    sessions st' !! "s1" = Some l ∧
    heap st' !! l = Some (OEssaySession s) ∧
    heap st' !! messages s = Some (OList items) ∧
    r = Ok 5%positive ∧ messages s ≠ 5%positive ∧
    heap st' !! 5%positive = Some (OList items).
Proof.
  vm_compute. eexists _, _, _. repeat split; try reflexivity. discriminate.
Qed.

(** ** Copies of the history *)

(** X21: each call of [get_session_history] returns a list object of its
    own: two calls in a row return two different objects, both new, and
    each holds the messages stored for the id. *)
Theorem history_copies_are_distinct (st : state) (sid : string) :
  wf st →
  ∃ r1 st1 r2 st2 vals,
    get_session_history sid st = (Ok r1, st1) ∧
    get_session_history sid st1 = (Ok r2, st2) ∧
    r1 ≠ r2 ∧ heap st !! r1 = None ∧ heap st !! r2 = None ∧
    stored_messages st sid = Some vals ∧
    read_messages (heap st2) r1 = Some vals ∧
    read_messages (heap st2) r2 = Some vals.
Proof.
  intros Hwf.
  assert (∃ hist, stored_messages st sid = Some hist) as [hist Hstored].
  { destruct (sessions st !! sid) as [l|] eqn:Hsid.
    - destruct (Hwf _ _ Hsid) as (s & vals & Hh). exists vals.
      by eapply stored_messages_known.
    - exists []. by apply stored_messages_unknown. }
  assert (Hhist : history st sid = Some hist) by (by rewrite history_stored).
  destruct (get_session_history_read st sid hist Hwf Hhist) as (items & Hrun & Hm).
  set (r1 := fresh (dom (heap st))) in *.
  set (st1 := mkState (<[r1 := OList items]> (heap st)) (sessions st) (ticks st) (sent st)) in *.
  assert (Hr1 : heap st !! r1 = None) by apply fresh_heap_None.
  assert (Hwf1 : wf st1).
  { apply (wf_subseteq st); [done|by apply insert_subseteq|done]. }
  assert (Hhist1 : history st1 sid = Some hist).
  { rewrite <- Hhist. apply history_subseteq; [done|by apply insert_subseteq|done]. }
  destruct (get_session_history_read st1 sid hist Hwf1 Hhist1) as (items' & Hrun' & Hm').
  set (r2 := fresh (dom (heap st1))) in *.
  assert (Hr2 : heap st1 !! r2 = None) by apply fresh_heap_None.
  assert (Hne : r1 ≠ r2).
  { intros E. rewrite <- E in Hr2. unfold st1 in Hr2. cbn in Hr2.
    by rewrite lookup_insert_eq in Hr2. }
  eexists r1, st1, r2, _, hist. split; [exact Hrun|]. split; [exact Hrun'|].
  split; [done|]. split; [done|].
  split; [unfold st1 in Hr2; cbn in Hr2; by rewrite lookup_insert_ne in Hr2|].
  split; [done|]. cbn [heap]. split.
  - apply read_messages_ok with items.
    + rewrite lookup_insert_ne by done. unfold st1. cbn. by rewrite lookup_insert_eq.
    + apply msgs_at_insert; [|intros v; by rewrite Hr2].
      unfold st1. cbn. apply msgs_at_insert; [done|]. intros v. by rewrite Hr1.
  - apply read_messages_ok with items'; [by rewrite lookup_insert_eq|].
    apply msgs_at_insert; [done|]. intros v. by rewrite Hr2.
Qed.

Lemma history_copies_are_distinct_witness :
  ∃ r1 st1 r2 st2 vals,
    get_session_history "s1" five_turns = (Ok r1, st1) ∧
    get_session_history "s1" st1 = (Ok r2, st2) ∧
    r1 ≠ r2 ∧ heap five_turns !! r1 = None ∧ heap five_turns !! r2 = None ∧
    stored_messages five_turns "s1" = Some vals ∧
    read_messages (heap st2) r1 = Some vals ∧
    read_messages (heap st2) r2 = Some vals.
Proof.
  apply (history_copies_are_distinct five_turns "s1").
  apply (reachable_wf stub_clock echo_remote), reachable_five_turns.
Defined.
